(** * Bar-trace calculation and axis-reference geometry of plotly.js

    A shallow embedding of

    - [src/traces/bar/calc.js]: the [calc] step that turns a bar trace
      into its calculated data, and
    - [test/jasmine/assets/domain_ref/components.js]: the helpers that
      predict where shapes, annotations and images referring to an axis
      range, an axis domain or the paper are drawn.

    JavaScript doubles are idealised as exact rationals ([Q]); the values
    [undefined] and [NaN] are kept apart from them.  Thrown exceptions are
    the [Throw] results of a small error monad. *)

From Stdlib Require Import List String Ascii Bool Arith Lia QArith Qabs.
Import ListNotations.

Open Scope string_scope.

(** ** Results of code that may throw *)

Inductive exn : Type :=
| Thrown (msg : string)            (* [throw 'some text'] *)
| UnknownAxis (name : string)      (* an axis that the plot does not have *)
| InvalidReference (ref : string). (* a reference string that cannot be classified *)

Inductive result (A : Type) : Type :=
| Ok (a : A)
| Throw (e : exn).

Arguments Ok {A} a.
Arguments Throw {A} e.

Definition bind {A B : Type} (m : result A) (k : A -> result B) : result B :=
  match m with
  | Ok a => k a
  | Throw e => Throw e
  end.

Declare Scope js_scope.
Delimit Scope js_scope with js.
Notation "x <- m ;; k" := (bind m (fun x => k))
  (at level 61, m at next level, right associativity) : js_scope.

(** ** [src/traces/bar/calc.js] *)

Module BarCalc.

(** The JavaScript values a trace attribute can hold. *)
#[warnings="-register-all"]
Inductive value : Type :=
| VUndefined
| VNull
| VBool (b : bool)
| VNaN
| VNum (q : Q)
| VStr (s : string)
| VArr (items : list value).

(** ToBoolean: [undefined], [null], [false], [0], [NaN] and [''] are
    falsy, everything else (arrays included) is truthy. *)
Definition truthy (v : value) : bool :=
  match v with
  | VUndefined | VNull | VNaN => false
  | VBool b => b
  | VNum q => negb (Qeq_bool q 0)
  | VStr s => negb (s =? "")
  | VArr _ => true
  end.

(** [a || b] *)
Definition js_or (a b : value) : value := if truthy a then a else b.

(** [v === 0] *)
Definition is_zero (v : value) : bool :=
  match v with
  | VNum q => Qeq_bool q 0
  | _ => false
  end.

(** [v === 'h'] and the like. *)
Definition is_str (v : value) (lit : string) : bool :=
  match v with
  | VStr s => s =? lit
  | _ => false
  end.

Record marker_line : Type := { line_color : value }.

Record marker_attrs : Type :=
  { color : value;
    line : option marker_line }.

(** The attributes of a trace that [calc] reads. *)
Record trace : Type :=
  { xaxis : option string;
    yaxis : option string;
    base : value;
    orientation : value;
    ids : option (list value);
    x : list value;
    y : list value;
    marker : option marker_attrs }.

(** One element of the calculated data: [{p: .., s: ..}], the [id] when
    the trace has ids, and whatever the later steps attach. *)
Record cdrecord : Type :=
  { p : value;
    s : value;
    id : option string;
    extra : list (string * value) }.

(** The options object handed to the colorscale step. *)
Record colorscale_opts : Type :=
  { vals : value;
    containerStr : string;
    cLetter : string }.

(** [trace.xaxis || 'x'] *)
Definition or_default (attr : option string) (dflt : string) : string :=
  match attr with
  | Some a => if a =? "" then dflt else a
  | None => dflt
  end.

(** [trace.marker.color] and [trace.marker.line.color] *)
Definition marker_color (t : trace) : value :=
  match marker t with
  | Some m => color m
  | None => VUndefined
  end.

Definition marker_line_color (t : trace) : value :=
  match marker t with
  | Some {| line := Some l |} => line_color l
  | _ => VUndefined
  end.

(** [var msUTC = !!(trace.base || trace.base === 0);] *)
Definition msUTC (t : trace) : bool :=
  truthy (js_or (base t) (VBool (is_zero (base t)))).

(** [arr[i]]: reading past the end of an array gives [undefined]. *)
Definition at_index (arr : list value) (i : nat) : value :=
  nth i arr VUndefined.

Section Calc.

(** The collaborators of [calc], none of which is defined in calc.js:
    the graph div and its axes, the axes' data coercion, the colorscale
    step (which writes to the trace), the two steps that decorate the
    calculated data, and the [String] conversion. *)
Variable gd : Type.
Variable axis : Type.
Variable getFromId : gd -> string -> option axis.
Variable makeCalcdata : axis -> trace -> string -> bool -> list value.
Variable hasColorscale : trace -> string -> bool.
Variable colorscaleCalc : gd -> trace -> colorscale_opts -> trace.
Variable arraysToCalcdata : list cdrecord -> trace -> list cdrecord.
Variable calcSelection : list cdrecord -> trace -> list cdrecord.
Variable String_ : value -> string.

(** [a.makeCalcdata(trace, letter, msUTC)] on the result of
    [Axes.getFromId]: a missing axis has no such method. *)
Definition call_makeCalcdata (a : option axis) (axid : string) (t : trace)
    (letter : string) (flag : bool) : result (list value) :=
  match a with
  | Some a => Ok (makeCalcdata a t letter flag)
  | None => Throw (UnknownAxis axid)
  end.

(** Lines 18-30: the pair [(size, pos)]. *)
Definition size_pos (g : gd) (t : trace) : result (list value * list value) :=
  let xid := or_default (xaxis t) "x" in
  let yid := or_default (yaxis t) "y" in
  let xa := getFromId g xid in
  let ya := getFromId g yid in
  let msUTC := msUTC t in
  if is_str (orientation t) "h"
  then (size <- call_makeCalcdata xa xid t "x" msUTC ;;
        pos <- call_makeCalcdata ya yid t "y" msUTC ;;
        Ok (size, pos))%js
  else (size <- call_makeCalcdata ya yid t "y" msUTC ;;
        pos <- call_makeCalcdata xa xid t "x" msUTC ;;
        Ok (size, pos))%js.

(** The body of the loop at lines 37-43 for index [i]. *)
Definition cd_at (t : trace) (pos_ size_ : list value) (i : nat) : cdrecord :=
  {| p := at_index pos_ i;
     s := at_index size_ i;
     id := match ids t with
           | Some l => Some (String_ (at_index l i))
           | None => None
           end;
     extra := [] |}.

(** Lines 33-43: [cd[i]] for [i = 0 .. serieslen - 1]. *)
Definition make_cd (t : trace) (pos_ size_ : list value) : list cdrecord :=
  let serieslen := Nat.min (List.length pos_) (List.length size_) in
  map (cd_at t pos_ size_) (seq 0 serieslen).

(** Lines 46-59: the two colorscale steps, each writing to the trace. *)
Definition colorscales (g : gd) (t : trace) : trace :=
  let t1 :=
    if hasColorscale t "marker"
    then colorscaleCalc g t
           {| vals := marker_color t; containerStr := "marker"; cLetter := "c" |}
    else t in
  if hasColorscale t1 "marker.line"
  then colorscaleCalc g t1
         {| vals := marker_line_color t1; containerStr := "marker.line";
            cLetter := "c" |}
  else t1.

(** [calc(gd, trace)]: the calculated data together with the trace as the
    colorscale steps leave it.  An axis id that the graph does not have
    makes the call fail. *)
Definition calc (g : gd) (t : trace) : result (list cdrecord * trace) :=
  (sp <- size_pos g t ;;
   let '(size, pos) := sp in
   let cd := make_cd t pos size in
   let t' := colorscales g t in
   let cd := arraysToCalcdata cd t' in
   let cd := calcSelection cd t' in
   Ok (cd, t'))%js.

End Calc.

(** What the decorating steps ([arraysToCalcdata], [calcSelection]) are
    relied on for: they attach fields to the records they are given and
    leave [p], [s] and [id] of every record alone. *)
Definition same_core (r r' : cdrecord) : Prop :=
  p r' = p r /\ s r' = s r /\ id r' = id r.

Definition decorates (f : list cdrecord -> trace -> list cdrecord) : Prop :=
  forall cd t, Forall2 same_core cd (f cd t).

End BarCalc.

(** ** [test/jasmine/assets/domain_ref/components.js] *)

Module DomainRef.

(** A number-valued slot of a JavaScript object: a (rational) number,
    [NaN], or nothing at all.  [Num] holds a finite number, taken exactly:
    the two infinities and the rounding of doubles are outside the model,
    so that what is proved of sums and differences of [Num]s is proved of
    exact arithmetic. *)
Inductive num : Type :=
| Undefined
| NaN
| Num (q : Q).

(** Arithmetic on such slots: anything that is not a number makes the
    result [NaN]. *)
Definition lift2 (op : Q -> Q -> Q) (a b : num) : num :=
  match a, b with
  | Num u, Num v => Num (op u v)
  | _, _ => NaN
  end.

Definition add : num -> num -> num := lift2 Qplus.
Definition sub : num -> num -> num := lift2 Qminus.
Definition mul : num -> num -> num := lift2 Qmult.

Definition neg (a : num) : num :=
  match a with
  | Num u => Num (- u)
  | _ => NaN
  end.

(** [a < b], false as soon as one side is not a number. *)
Definition lt (a b : num) : bool :=
  match a, b with
  | Num u, Num v => negb (Qle_bool v u)
  | _, _ => false
  end.

(** [Math.abs] *)
Definition abs (a : num) : num :=
  match a with
  | Num u => Num (Qabs u)
  | _ => NaN
  end.

(** Equality of slots up to the representation of the rationals. *)
Definition num_eq (a b : num) : Prop :=
  match a, b with
  | Undefined, Undefined => True
  | NaN, NaN => True
  | Num u, Num v => u == v
  | _, _ => False
  end.

(** *** Reference strings *)

Inductive reftype : Type := range | domain | paper | pixel.

Definition reftype_eqb (a b : reftype) : bool :=
  match a, b with
  | range, range | domain, domain | paper, paper | pixel, pixel => true
  | _, _ => false
  end.

Definition domain_suffix : string := " domain".

(** [suffix] is the end of [str]. *)
Definition ends_with (suffix str : string) : bool :=
  let n := String.length str in
  let k := String.length suffix in
  (k <=? n)%nat && (substring (n - k) k str =? suffix).

(** [str] without its last [length suffix] characters. *)
Definition strip_suffix (suffix str : string) : string :=
  substring 0 (String.length str - String.length suffix) str.

(** Modelled from the spec: [Axes.getRefType] of
    src/plots/cartesian/axes.js, which is not among the sources.  The
    reference resolver sorts a reference string into range, domain, paper
    or pixel: the literal tokens [paper] and [pixel] name their own kind, a
    string ending in [" domain"] is a domain reference, and anything else
    is a range reference. *)
Definition getRefType (ar : string) : reftype :=
  if ar =? "paper" then paper
  else if ar =? "pixel" then pixel
  else if ends_with domain_suffix ar then domain
  else range.

Record classified : Type :=
  { kind : reftype;
    axisId : option string }.

(** Modelled from the spec: the resolver's [classify], which adds the axis
    id to the kind (the string without its [" domain"] suffix, or the string
    itself for a range reference) and fails on the empty string. *)
Definition classify (ar : string) : result classified :=
  if ar =? "" then Throw (InvalidReference ar)
  else
    match getRefType ar with
    | paper => Ok {| kind := paper; axisId := None |}
    | pixel => Ok {| kind := pixel; axisId := None |}
    | domain => Ok {| kind := domain; axisId := Some (strip_suffix domain_suffix ar) |}
    | range => Ok {| kind := range; axisId := Some ar |}
    end.

(** [makeAxRef(axid, ref)] *)
Definition makeAxRef (axid ref : string) : result string :=
  if ref =? "range" then Ok axid
  else if ref =? "domain" then Ok (axid ++ " domain")
  else if ref =? "paper" then Ok "paper"
  else Throw (Thrown ("Bad axis type (ref): " ++ ref)).

(** The axis ids that the helpers are used with: an axis letter followed
    by an optional number ([x], [y], [x2], [y2], ...), as
    [aroFromAROPos] assembles them ([axletter + axnum]). *)
Definition is_digit (c : ascii) : bool :=
  let n := nat_of_ascii c in (48 <=? n)%nat && (n <=? 57)%nat.

Fixpoint all_digits (str : string) : bool :=
  match str with
  | EmptyString => true
  | String c rest => is_digit c && all_digits rest
  end.

Definition is_axis_id (a : string) : bool :=
  match a with
  | EmptyString => false
  | String c rest => ((c =? "x")%char || (c =? "y")%char) && all_digits rest
  end.

(** *** Axis-referencing objects *)

Module Shape.
Record t : Type :=
  { xref : string; yref : string;
    x0 : num; y0 : num; x1 : num; y1 : num;
    type : string;
    line_color : string }.
End Shape.

Module Annotation.
Record t : Type :=
  { xref : string; yref : string;
    x : num; y : num;
    text : string;
    ax : num; ay : num;
    axref : string; ayref : string;
    showarrow : bool;
    arrowhead : nat;
    arrowcolor : string }.
End Annotation.

Module Image.
Record t : Type :=
  { x : num; y : num;
    sizex : num; sizey : num;
    source : string;
    xanchor : string; yanchor : string;
    xref : string; yref : string;
    sizing : string }.
End Image.


Inductive ARO : Type :=
| AShape (sh : Shape.t)
| AAnnotation (an : Annotation.t)
| AImage (im : Image.t).

(** The [axref] argument of [mapAROCoordToPixel]: ['xref'] or ['yref']. *)
Inductive refname : Type := xref | yref.

(** [axref[0]] *)
Definition axletter (axref : refname) : string :=
  match axref with
  | xref => "x"
  | yref => "y"
  end.

(** The [c] argument of [mapAROCoordToPixel]: the name of a coordinate. *)
Inductive coordname : Type := cx0 | cx1 | cy0 | cy1 | cx | cy | cax | cay.

(** [aro[axref]] *)
Definition aro_ref (aro : ARO) (axref : refname) : string :=
  match aro, axref with
  | AShape sh, xref => Shape.xref sh
  | AShape sh, yref => Shape.yref sh
  | AAnnotation an, xref => Annotation.xref an
  | AAnnotation an, yref => Annotation.yref an
  | AImage im, xref => Image.xref im
  | AImage im, yref => Image.yref im
  end.

(** [aro[c]]: a property the object does not have reads as [undefined]. *)
Definition aro_coord (aro : ARO) (c : coordname) : num :=
  match aro, c with
  | AShape sh, cx0 => Shape.x0 sh
  | AShape sh, cx1 => Shape.x1 sh
  | AShape sh, cy0 => Shape.y0 sh
  | AShape sh, cy1 => Shape.y1 sh
  | AAnnotation an, cx => Annotation.x an
  | AAnnotation an, cy => Annotation.y an
  | AAnnotation an, cax => Annotation.ax an
  | AAnnotation an, cay => Annotation.ay an
  | AImage im, cx => Image.x im
  | AImage im, cy => Image.y im
  | _, _ => Undefined
  end.

(** The bounding box [{x, y, width, height}]. *)
Record bbox : Type :=
  { bbox_x : num;
    bbox_y : num;
    bbox_width : num;
    bbox_height : num }.

(** The options of an annotation in [aroFromParams]. *)
Record annotation_opts : Type :=
  { opts_ax : num; opts_ay : num;
    opts_axref : string; opts_ayref : string }.

(** The ['annotation'] case of [aroFromParams]. *)
Definition aroFromParams_annotation (x0 y0 : num) (xref yref color : string)
    (opts : annotation_opts) : Annotation.t :=
  {| Annotation.xref := xref;
     Annotation.yref := yref;
     Annotation.x := x0;
     Annotation.y := y0;
     Annotation.text := "A";
     Annotation.ax := opts_ax opts;
     Annotation.ay := opts_ay opts;
     Annotation.axref := opts_axref opts;
     Annotation.ayref := opts_ayref opts;
     Annotation.showarrow := true;
     Annotation.arrowhead := 0;
     Annotation.arrowcolor := color |}.

(** [annaxscale(ac, c0, K)] *)
Definition annaxscale (ac c0 K : num) : num :=
  add c0 (mul (Num 2) (sub ac c0)).

Definition EQUALITY_TOLERANCE : Q := 1 # 100.

(** [coordsEq(a, b)], on exact numbers and against the exact [1/100]. *)
Definition coordsEq (a b : num) : bool :=
  lt (abs (sub a b)) (Num EQUALITY_TOLERANCE).

(** [compareBBoxes(a, b)] *)
Definition compareBBoxes (a b : bbox) : bool :=
  fold_left andb
    (map (fun k : bbox -> num => coordsEq (k a) (k b))
         [bbox_x; bbox_y; bbox_width; bbox_height])
    true.

Section PixelMapping.

(** What the helpers take from elsewhere: the layout of the graph div,
    [axisIds.id2name], the three mappings of [pixelCalc] (each may throw,
    for instance on an axis that the layout lacks) and [Math.log10]. *)
Variable layout : Type.
Variable id2name : string -> string.
Variable mapRangeToPixel : layout -> string -> num -> bool -> result num.
Variable mapDomainToPixel : layout -> string -> num -> result num.
Variable mapPaperToPixel : layout -> string -> num -> result num.
Variable log10 : num -> num.

(** [mapAROCoordToPixel(layout, axref, aro, c, offset, nolog)]; an
    argument that the caller leaves out is [Undefined] for [offset] and
    [false] for [nolog]. *)
Definition mapAROCoordToPixel (l : layout) (axref : refname) (aro : ARO)
    (c : coordname) (offset : num) (nolog : bool) : result num :=
  let reftype := getRefType (aro_ref aro axref) in
  let axletter := axletter axref in
  let offset := match offset with Undefined => Num 0 | _ => offset end in
  let val := add (aro_coord aro c) offset in
  match reftype with
  | range =>
      let axis := id2name (aro_ref aro axref) in
      mapRangeToPixel l axis val nolog
  | domain =>
      let axis := id2name (aro_ref aro axref) in
      mapDomainToPixel l axis val
  | paper =>
      let axis := axletter in
      mapPaperToPixel l axis val
  | pixel => Ok Undefined
  end.

(** [shapeToBBox(layout, aro)] *)
Definition shapeToBBox (l : layout) (aro : ARO) : result bbox :=
  (x <- mapAROCoordToPixel l xref aro cx0 Undefined false ;;
   x1 <- mapAROCoordToPixel l xref aro cx1 Undefined false ;;
   y <- mapAROCoordToPixel l yref aro cy1 Undefined false ;;
   y1 <- mapAROCoordToPixel l yref aro cy0 Undefined false ;;
   Ok {| bbox_x := x;
         bbox_y := y;
         bbox_width := sub x1 x;
         bbox_height := sub y1 y |})%js.

(** The [switch (img.xanchor)] of [imageToBBox]: the pair [(x0, x1)]. *)
Definition x_edges (l : layout) (img : Image.t) : result (num * num) :=
  let xanchor := Image.xanchor img in
  let sizex := Image.sizex img in
  let map := mapAROCoordToPixel l xref (AImage img) cx in
  (if xanchor =? "left" then
     x0 <- map Undefined true ;;
     x1 <- map sizex true ;;
     Ok (x0, x1)
   else if xanchor =? "right" then
     x0 <- map (neg sizex) true ;;
     x1 <- map Undefined true ;;
     Ok (x0, x1)
   else if xanchor =? "center" then
     x0 <- map (mul (neg sizex) (Num (1 # 2))) true ;;
     x1 <- map (mul sizex (Num (1 # 2))) true ;;
     Ok (x0, x1)
   else Throw (Thrown ("Bad xanchor: " ++ xanchor)))%js.

(** The [switch (img.yanchor)] of [imageToBBox]: the pair [(y0, y1)]. *)
Definition y_edges (l : layout) (img : Image.t) : result (num * num) :=
  let yanchor := Image.yanchor img in
  let sizey := Image.sizey img in
  let map := mapAROCoordToPixel l yref (AImage img) cy in
  (if yanchor =? "bottom" then
     y0 <- map Undefined true ;;
     y1 <- map sizey true ;;
     Ok (y0, y1)
   else if yanchor =? "top" then
     y0 <- map (neg sizey) true ;;
     y1 <- map Undefined true ;;
     Ok (y0, y1)
   else if yanchor =? "middle" then
     y0 <- map (mul (neg sizey) (Num (1 # 2))) true ;;
     y1 <- map (mul sizey (Num (1 # 2))) true ;;
     Ok (y0, y1)
   else Throw (Thrown ("Bad yanchor: " ++ yanchor)))%js.

(** [imageToBBox(layout, img)] *)
Definition imageToBBox (l : layout) (img : Image.t) : result bbox :=
  (xs <- x_edges l img ;;
   ys <- y_edges l img ;;
   let '(x0, x1) := xs in
   let '(y0, y1) := ys in
   Ok {| bbox_x := x0;
         bbox_width := sub x1 x0;
         bbox_y := y1;
         bbox_height := sub y0 y1 |})%js.

(** What [annotationTest] expects of the two annotations it draws. *)
Record annotation_expectation : Type :=
  { axpixels : bool;
    aypixels : bool;
    xabspixels : num;
    yabspixels : num;
    xpixels : num;
    ypixels : num }.

(** [annotationTest], up to the point where it reads the drawn
    annotations off the page: [gdlayout] is [gd.layout] as
    [Plotly.relayout] leaves it. *)
Definition annotationTest_expected (gdlayout : layout)
    (x0 y0 ax ay : num) (xref_ yref_ axref ayref xaxistype yaxistype : string)
    : result annotation_expectation :=
  let xreftype := getRefType xref_ in
  let yreftype := getRefType yref_ in
  let axreftype := getRefType axref in
  let ayreftype := getRefType ayref in
  let x0 := if reftype_eqb xreftype range && (xaxistype =? "log") then log10 x0 else x0 in
  let ax := if reftype_eqb axreftype range && (xaxistype =? "log") then log10 ax else ax in
  let y0 := if reftype_eqb yreftype range && (yaxistype =? "log") then log10 y0 else y0 in
  let ay := if reftype_eqb ayreftype range && (yaxistype =? "log") then log10 ay else ay in
  let axpixels :=
    if reftype_eqb axreftype pixel || negb (reftype_eqb axreftype xreftype)
    then true else false in
  let aypixels :=
    if reftype_eqb ayreftype pixel || negb (reftype_eqb ayreftype yreftype)
    then true else false in
  let opts0 :=
    {| opts_ax := ax; opts_ay := ay; opts_axref := axref; opts_ayref := ayref |} in
  let opts1 :=
    {| opts_ax := if axpixels then mul (Num 2) ax else annaxscale ax x0 (Num 2);
       opts_ay := if aypixels then mul (Num 2) ay else annaxscale ay y0 (Num 2);
       opts_axref := axref; opts_ayref := ayref |} in
  let color0 := "rgb(10, 20, 30)" in
  let color1 := "rgb(10, 20, 31)" in
  let anno0 := aroFromParams_annotation x0 y0 xref_ yref_ color0 opts0 in
  let anno1 := aroFromParams_annotation x0 y0 xref_ yref_ color1 opts1 in
  (xabspixels <- mapAROCoordToPixel gdlayout xref (AAnnotation anno1) cx (Num 0) true ;;
   yabspixels <- mapAROCoordToPixel gdlayout yref (AAnnotation anno1) cy (Num 0) true ;;
   xpixels <-
     (if axpixels then Ok ax
      else
        v <- mapAROCoordToPixel gdlayout xref (AAnnotation anno0) cax (Num 0) true ;;
        Ok (sub v xabspixels)) ;;
   ypixels <-
     (if aypixels then Ok ay
      else
        v <- mapAROCoordToPixel gdlayout yref (AAnnotation anno0) cay (Num 0) true ;;
        Ok (sub v yabspixels)) ;;
   Ok {| axpixels := axpixels; aypixels := aypixels;
         xabspixels := xabspixels; yabspixels := yabspixels;
         xpixels := xpixels; ypixels := ypixels |})%js.

(** The rest of [annotationTest]: the comparison with the boxes of the
    two drawn annotations, [annobbox0] and [annobbox1]. *)
Definition annotationTest_compare (e : annotation_expectation)
    (annobbox0 annobbox1 : bbox) : bool :=
  let arrowLenX :=
    sub (add (bbox_x annobbox1) (bbox_width annobbox1))
        (add (bbox_x annobbox0) (bbox_width annobbox0)) in
  let '(arrowLenY, yabspixelscmp) :=
    if aypixels e
    then (sub (add (bbox_y annobbox1) (bbox_height annobbox1))
              (add (bbox_y annobbox0) (bbox_height annobbox0)),
          bbox_y annobbox0)
    else (sub (bbox_y annobbox1) (bbox_y annobbox0),
          add (bbox_y annobbox0) (bbox_height annobbox0)) in
  coordsEq arrowLenX (xpixels e) &&
  coordsEq arrowLenY (ypixels e) &&
  coordsEq (xabspixels e) (bbox_x annobbox0) &&
  coordsEq (yabspixels e) yabspixelscmp.

Definition annotationTest (gdlayout : layout)
    (x0 y0 ax ay : num) (xref_ yref_ axref ayref xaxistype yaxistype : string)
    (annobbox0 annobbox1 : bbox) : result bool :=
  (e <- annotationTest_expected gdlayout x0 y0 ax ay xref_ yref_ axref ayref
          xaxistype yaxistype ;;
   Ok (annotationTest_compare e annobbox0 annobbox1))%js.

End PixelMapping.

End DomainRef.

(** ** The pixel mappings the helpers rely on

    [test/jasmine/assets/pixel_calc.js], [axisIds.id2name] and the layout
    object are not among the sources; this module gives them the shape the
    specification describes. *)

Module PixelCalc.

Import DomainRef.

Inductive axis_type : Type := linear | log | date | category.

(** Modelled from the spec: the state of an axis, which pixel_calc.js reads
    from the layout and which is missing here.  An axis has a type, a range
    [[min, max]] in data units (in log10 of them on a log axis) and the span
    of pixels [[lo, hi]] that its domain occupies. *)
Record Axis : Type :=
  { ax_type : axis_type;
    ax_range : Q * Q;
    ax_pixels : Q * Q }.

(** Modelled from the spec: the layout, missing here, as the axis registry
    (axes by id) together with the span of pixels of the whole plotting
    canvas along x and along y. *)
Record Layout : Type :=
  { axes : list (string * Axis);
    paper_x : Q * Q;
    paper_y : Q * Q }.

Fixpoint find_axis (axisId : string) (l : list (string * Axis)) : option Axis :=
  match l with
  | [] => None
  | (k, a) :: rest => if k =? axisId then Some a else find_axis axisId rest
  end.

(** Modelled from the spec: the registry's [resolve], missing here, which
    fails on an axis id that the layout does not have. *)
Definition resolve (l : Layout) (axisId : string) : result Axis :=
  match find_axis axisId (axes l) with
  | Some a => Ok a
  | None => Throw (UnknownAxis axisId)
  end.

(** Modelled from the spec: the scaling of a fraction onto a span of
    pixels, missing here with pixel_calc.js: [0] is the start of the span
    and [1] its end ([100 + 0.2 * 300] for the span from 100 to 400). *)
Definition fractionToPixel (span : Q * Q) (f : Q) : Q :=
  fst span + f * (snd span - fst span).

(** Modelled from the spec: [domainFractionToPixel], missing here, which
    maps [[0, 1]] onto the span of pixels of the axis. *)
Definition domainFractionToPixel (a : Axis) (f : Q) : Q :=
  fractionToPixel (ax_pixels a) f.

(** Modelled from the spec: the linear scale of [dataToPixel], missing
    here, which carries the range of the axis onto its span of pixels.  It
    is meant for a range with two different ends: the quotient by an empty
    range is not a finite number and lies outside the model. *)
Definition rangeToPixel (a : Axis) (v : Q) : Q :=
  let '(r0, r1) := ax_range a in
  domainFractionToPixel a ((v - r0) / (r1 - r0)).

Definition is_log (a : Axis) : bool :=
  match ax_type a with
  | log => true
  | _ => false
  end.

(** Modelled from the spec: what the missing mappings do with a slot that
    holds no number, which is to hand [NaN] on. *)
Definition on_number (f : Q -> Q) (val : num) : num :=
  match val with
  | Num v => Num (f v)
  | _ => NaN
  end.

Section Mappings.

(** [Math.log10] *)
Variable log10 : num -> num.

(** Modelled from the spec: [axisIds.id2name], missing here, as the axis
    id that a reference names (the reference without its [" domain"]). *)
Definition id2name (ar : string) : string :=
  if ends_with domain_suffix ar then strip_suffix domain_suffix ar else ar.

(** Modelled from the spec: [pixelCalc.mapRangeToPixel], missing here.
    The log10 of the value is taken first when the axis is a log axis and
    [nolog] is not set; then the value is scaled into the pixels of the
    axis. *)
Definition mapRangeToPixel (l : Layout) (axis : string) (val : num)
    (nolog : bool) : result num :=
  (a <- resolve l axis ;;
   let val := if negb nolog && is_log a then log10 val else val in
   Ok (on_number (rangeToPixel a) val))%js.

(** Modelled from the spec: [pixelCalc.mapDomainToPixel], missing here. *)
Definition mapDomainToPixel (l : Layout) (axis : string) (val : num)
    : result num :=
  (a <- resolve l axis ;;
   Ok (on_number (domainFractionToPixel a) val))%js.

(** Modelled from the spec: [pixelCalc.mapPaperToPixel], missing here: a
    fraction of the whole canvas along the axis letter. *)
Definition mapPaperToPixel (l : Layout) (axis : string) (val : num)
    : result num :=
  let span := if axis =? "x" then paper_x l else paper_y l in
  Ok (on_number (fractionToPixel span) val).

(** The helpers of components.js over these mappings. *)
Definition mapAROCoordToPixel :=
  DomainRef.mapAROCoordToPixel Layout id2name
    mapRangeToPixel mapDomainToPixel mapPaperToPixel.

Definition shapeToBBox :=
  DomainRef.shapeToBBox Layout id2name
    mapRangeToPixel mapDomainToPixel mapPaperToPixel.

Definition imageToBBox :=
  DomainRef.imageToBBox Layout id2name
    mapRangeToPixel mapDomainToPixel mapPaperToPixel.

Definition y_edges :=
  DomainRef.y_edges Layout id2name
    mapRangeToPixel mapDomainToPixel mapPaperToPixel.

Definition x_edges :=
  DomainRef.x_edges Layout id2name
    mapRangeToPixel mapDomainToPixel mapPaperToPixel.

Definition annotationTest_expected :=
  DomainRef.annotationTest_expected Layout id2name
    mapRangeToPixel mapDomainToPixel mapPaperToPixel log10.


End Mappings.

End PixelCalc.


(** ** More traces to run [calc] on *)

Module CalcExampleMore.

Import BarCalc.

(** [{x: [1, 2, 3], y: [10, 20, 30], ids: ['a']}]: fewer ids than points. *)
Definition trace_short_ids : trace :=
  {| xaxis := None; yaxis := None;
     base := VUndefined;
     orientation := VUndefined;
     ids := Some [VStr "a"];
     x := [VNum 1; VNum 2; VNum 3];
     y := [VNum 10; VNum 20; VNum 30];
     marker := None |}.

(** [{x: [1, 2], y: []}] *)
Definition trace_no_y : trace :=
  {| xaxis := None; yaxis := None;
     base := VUndefined;
     orientation := VUndefined;
     ids := None;
     x := [VNum 1; VNum 2];
     y := [];
     marker := None |}.

End CalcExampleMore.

(** ** More of components.js: objects, layouts and the set-up of the tests *)

Module Components.

Import DomainRef.

(** *** Objects written to by name *)

(** A property of an object: a number-valued slot or a string. *)
Inductive prop : Type :=
| PNum (n : num)
| PStr (str : string).

(** An object as its properties in the order they were first written. *)
Definition object : Type := list (string * prop).

(** [obj[key]]: [None] is [undefined]. *)
Fixpoint get (obj : object) (key : string) : option prop :=
  match obj with
  | [] => None
  | (k, v) :: rest => if k =? key then Some v else get rest key
  end.

(** [obj[key] = v]: the property is overwritten where it stands, or added. *)
Fixpoint set (obj : object) (key : string) (v : prop) : object :=
  match obj with
  | [] => [(key, v)]
  | (k, w) :: rest =>
      if k =? key then (k, v) :: rest else (k, w) :: set rest key v
  end.

(** An entry of [aroPositionsX] or [aroPositionsY], with its fields [ref],
    [value], [size] and [pixel]. *)
Record aropos : Type :=
  { pos_ref : string;
    pos_value : list num;
    pos_size : num;
    pos_pixel : num }.

(** [arr[i]] on an array of numbers. *)
Definition at_index (arr : list num) (i : nat) : num := nth i arr Undefined.

Definition aroPositionsX : list aropos :=
  [ {| pos_ref := "range"; pos_value := [Num 2; Num 3];
       pos_size := Num (15 # 10); pos_pixel := Num 25 |};
    {| pos_ref := "domain"; pos_value := [Num (2 # 10); Num (75 # 100)];
       pos_size := Num (3 # 10); pos_pixel := Num 30 |};
    {| pos_ref := "paper"; pos_value := [Num (25 # 100); Num (8 # 10)];
       pos_size := Num (35 # 100); pos_pixel := Num 35 |} ].

Definition aroPositionsY : list aropos :=
  [ {| pos_ref := "range"; pos_value := [Num 1; Num 2];
       pos_pixel := Num 30; pos_size := Num (12 # 10) |};
    {| pos_ref := "domain"; pos_value := [Num (25 # 100); Num (7 # 10)];
       pos_pixel := Num 40; pos_size := Num (2 # 10) |};
    {| pos_ref := "paper"; pos_value := [Num (2 # 10); Num (85 # 100)];
       pos_pixel := Num 45; pos_size := Num (3 # 10) |} ].

Definition axisTypes : list string := ["linear"; "log"].

Definition axisPairs : list (string * string) :=
  [("x", "y"); ("x2", "y"); ("x", "y2"); ("x2", "y2")].

Definition arrowAxis : list (string * string) :=
  [("s", "s"); ("p", "s"); ("s", "p"); ("p", "p")].

Definition xAnchors : list string := ["left"; "center"; "right"].
Definition yAnchors : list string := ["top"; "middle"; "bottom"].

(** [aroFromAROPos(aro, axletter, axnum, aropos)]; [axnum] is the number
    of the axis as it is appended to the letter (empty for the first
    axis).  The object is written to in place, so the new object is the
    result. *)
Definition aroFromAROPos (aro : object) (axletter axnum : string)
    (pos : aropos) : object :=
  let aro := set aro (axletter ++ "0") (PNum (at_index (pos_value pos) 0)) in
  let aro := set aro (axletter ++ "1") (PNum (at_index (pos_value pos) 1)) in
  if pos_ref pos =? "range" then
    set aro (axletter ++ "ref") (PStr (axletter ++ axnum))
  else if pos_ref pos =? "domain" then
    set aro (axletter ++ "ref") (PStr ((axletter ++ axnum) ++ " domain"))
  else if pos_ref pos =? "paper" then
    set aro (axletter ++ "ref") (PStr "paper")
  else aro.

(** [aroSetCommonParams(aro, coordletter, axref, value)] *)
Definition aroSetCommonParams (aro : object) (coordletter axref : string)
    (v : num) : object :=
  let aro := set aro (coordletter ++ "0") (PNum v) in
  set aro "axref" (PStr axref).

(** A box all of whose fields are finite numbers. *)
Definition finite_box (b : bbox) : Prop :=
  exists x y w h, b = {| bbox_x := Num x; bbox_y := Num y;
                         bbox_width := Num w; bbox_height := Num h |}.

(** The three kinds of reference that the tables of the tests use. *)
Definition valid_ref (r : string) : Prop :=
  r = "range" \/ r = "domain" \/ r = "paper".

(** The shape [sh] with [x0] and [x1] exchanged. *)
Definition swap_x (sh : Shape.t) : Shape.t :=
  {| Shape.xref := Shape.xref sh; Shape.yref := Shape.yref sh;
     Shape.x0 := Shape.x1 sh; Shape.y0 := Shape.y0 sh;
     Shape.x1 := Shape.x0 sh; Shape.y1 := Shape.y1 sh;
     Shape.type := Shape.type sh;
     Shape.line_color := Shape.line_color sh |}.

(** *** Layouts *)

(** The part of an axis of the layout that the helpers touch, and its
    other properties. *)
Record axisobj : Type :=
  { ao_type : option string;
    ao_range : option (list num);
    ao_other : object }.

(** A layout (or an update of one) as its axes by name. *)
Definition layoutobj : Type := list (string * axisobj).

Fixpoint get_axis (l : layoutobj) (axname : string) : option axisobj :=
  match l with
  | [] => None
  | (k, a) :: rest => if k =? axname then Some a else get_axis rest axname
  end.

Fixpoint set_axis (l : layoutobj) (axname : string) (a : axisobj) : layoutobj :=
  match l with
  | [] => [(axname, a)]
  | (k, b) :: rest =>
      if k =? axname then (k, a) :: rest else (k, b) :: set_axis rest axname a
  end.

(** [{...layoutIn[axname]}]: the copy of nothing is the empty object. *)
Definition spread (a : option axisobj) : axisobj :=
  match a with
  | Some a => a
  | None => {| ao_type := None; ao_range := None; ao_other := [] |}
  end.

Section Layouts.

(** [axisIds.id2name] and [Math.log10], neither defined in components.js. *)
Variable id2name : string -> string.
Variable log10 : num -> num.

(** [logAxisIfAxType(layoutIn, layoutOut, axid, axtype)] for an [axid]
    that is given.  [layoutOut] is written to in place, so the new
    [layoutOut] is the result; [None] is the TypeError of [axis.range.map]
    on an axis without a range. *)
Definition logAxisIfAxType (layoutIn layoutOut : layoutobj)
    (axid axtype : string) : option layoutobj :=
  let axname := id2name axid in
  if axtype =? "log" then
    let axis := spread (get_axis layoutIn axname) in
    match ao_range axis with
    | Some rng =>
        let axis := {| ao_type := Some "log";
                       ao_range := Some (map log10 rng);
                       ao_other := ao_other axis |} in
        Some (set_axis layoutOut axname axis)
    | None => None
    end
  else Some layoutOut.

End Layouts.

(** *** The set-up of the tests *)

(** A combination of [annotationTestCombos]. *)
Record annotation_combo : Type :=
  { axistypex : string;
    axistypey : string;
    axispair : string * string;
    aroposx : aropos;
    aroposy : aropos;
    arrowaxispair : string * string;
    gd_id : string }.

(** The arguments that [testAnnotationCombo] hands to [annotationTest]. *)
Record annotation_args : Type :=
  { arg_x0 : num; arg_y0 : num; arg_ax : num; arg_ay : num;
    arg_xref : string; arg_yref : string;
    arg_axref : string; arg_ayref : string }.

(** [testAnnotationCombo(combo, assert, gd)] up to its call of
    [annotationTest]. *)
Definition testAnnotationCombo_args (combo : annotation_combo)
    : result annotation_args :=
  let xid := fst (axispair combo) in
  let yid := snd (axispair combo) in
  (xref <- makeAxRef xid (pos_ref (aroposx combo)) ;;
   yref <- makeAxRef yid (pos_ref (aroposy combo)) ;;
   let axref := if fst (arrowaxispair combo) =? "p" then "pixel" else xref in
   let ayref := if snd (arrowaxispair combo) =? "p" then "pixel" else yref in
   let x0 := at_index (pos_value (aroposx combo)) 0 in
   let y0 := at_index (pos_value (aroposy combo)) 0 in
   let ax := if axref =? "pixel" then pos_pixel (aroposx combo)
             else at_index (pos_value (aroposx combo)) 1 in
   let ay := if ayref =? "pixel" then pos_pixel (aroposy combo)
             else at_index (pos_value (aroposy combo)) 1 in
   Ok {| arg_x0 := x0; arg_y0 := y0; arg_ax := ax; arg_ay := ay;
         arg_xref := xref; arg_yref := yref;
         arg_axref := axref; arg_ayref := ayref |})%js.

Section Tests.

Variable layout : Type.
Variable id2name : string -> string.
Variable mapRangeToPixel : layout -> string -> num -> bool -> result num.
Variable mapDomainToPixel : layout -> string -> num -> result num.
Variable mapPaperToPixel : layout -> string -> num -> result num.
Variable log10 : num -> num.

(** [testAnnotationCombo] up to the point where [annotationTest] reads the
    page: [gdlayout] is [gd.layout] as [Plotly.relayout] leaves it. *)
Definition testAnnotationCombo_expected (gdlayout : layout)
    (combo : annotation_combo) : result annotation_expectation :=
  (a <- testAnnotationCombo_args combo ;;
   annotationTest_expected layout id2name mapRangeToPixel mapDomainToPixel
     mapPaperToPixel log10 gdlayout
     (arg_x0 a) (arg_y0 a) (arg_ax a) (arg_ay a)
     (arg_xref a) (arg_yref a) (arg_axref a) (arg_ayref a)
     (axistypex combo) (axistypey combo))%js.

(** [checkAROPosition], from the box [aroPathBBox] that the page reports
    for the shape on. *)
Definition checkAROPosition (gdlayout : layout) (aro : ARO)
    (aroPathBBox : bbox) : result bool :=
  (aroBBox <- shapeToBBox layout id2name mapRangeToPixel mapDomainToPixel
                mapPaperToPixel gdlayout aro ;;
   Ok (compareBBoxes aroBBox aroPathBBox))%js.

End Tests.

End Components.

(** ** Objects, layouts and combinations to run these on *)

Module ComponentsExample.

Import DomainRef Components.

(** A rectangle whose [xref] is the ['pixel'] token. *)
Definition rect_on_pixels : Shape.t :=
  {| Shape.xref := "pixel"; Shape.yref := "y domain";
     Shape.x0 := Num 2; Shape.y0 := Num (1 # 4);
     Shape.x1 := Num 3; Shape.y1 := Num (7 # 10);
     Shape.type := "rect";
     Shape.line_color := "rgb(50, 100, 150)" |}.

(** A vertical line at [x = 2]. *)
Definition vline : Shape.t :=
  {| Shape.xref := "x"; Shape.yref := "y domain";
     Shape.x0 := Num 2; Shape.y0 := Num (1 # 4);
     Shape.x1 := Num 2; Shape.y1 := Num (7 # 10);
     Shape.type := "line";
     Shape.line_color := "rgb(50, 100, 150)" |}.

(** [axisIds.id2name] on the ids of the example: [x2] is [xaxis2]. *)
Definition id2name (axid : string) : string :=
  match axid with
  | String c rest => String c ("axis" ++ rest)
  | EmptyString => EmptyString
  end.

(** A layout with a linear [xaxis2] from 1 to 1000 and a [yaxis] that has
    no range yet. *)
Definition layout_in : layoutobj :=
  [ ("xaxis2", {| ao_type := Some "linear";
                  ao_range := Some [Num 1; Num 1000];
                  ao_other := [("anchor", PStr "y")] |});
    ("yaxis", {| ao_type := None; ao_range := None; ao_other := [] |}) ].

(** The combination of the first entries of the tables, with the x arrow
    in pixels. *)
Definition combo : annotation_combo :=
  {| axistypex := "linear";
     axistypey := "linear";
     axispair := ("x", "y");
     aroposx := {| pos_ref := "range"; pos_value := [Num 2; Num 3];
                   pos_size := Num (15 # 10); pos_pixel := Num 25 |};
     aroposy := {| pos_ref := "range"; pos_value := [Num 1; Num 2];
                   pos_pixel := Num 30; pos_size := Num (12 # 10) |};
     arrowaxispair := ("p", "s");
     gd_id := "graph-0" |}.

End ComponentsExample.

(** ** A plot and traces to run [calc] on *)

Module CalcExample.

Import BarCalc.

(** A plot is given by the ids of its axes, and an axis by its id. *)
Definition gd : Type := list string.
Definition axis : Type := string.

Definition getFromId (g : gd) (axid : string) : option axis :=
  if existsb (String.eqb axid) g then Some axid else None.

(** Coercion on a linear axis of data that is numeric already: the array
    of the field, as it is. *)
Definition makeCalcdata (a : axis) (t : trace) (letter : string) (flag : bool)
    : list value :=
  if letter =? "x" then x t else y t.

(** Traces without colorscale, text or selection: nothing is attached. *)
Definition hasColorscale (t : trace) (container : string) : bool := false.
Definition colorscaleCalc (g : gd) (t : trace) (o : colorscale_opts) : trace := t.
Definition arraysToCalcdata (cd : list cdrecord) (t : trace) : list cdrecord := cd.
Definition calcSelection (cd : list cdrecord) (t : trace) : list cdrecord := cd.

(** [String] on the ids of these traces: a string is itself, and the
    [undefined] read past the end of the array is ['undefined']. *)
Definition String_ (v : value) : string :=
  match v with
  | VStr str => str
  | VNull => "null"
  | VBool true => "true"
  | VBool false => "false"
  | VNaN => "NaN"
  | _ => "undefined"
  end.

Definition calc : gd -> trace -> result (list cdrecord * trace) :=
  BarCalc.calc gd axis getFromId makeCalcdata hasColorscale colorscaleCalc
    arraysToCalcdata calcSelection String_.

Definition plot : gd := ["x"; "y"].

(** [{x: [1, 2, 3], y: [10, 20], orientation: 'v'}] *)
Definition trace_v : trace :=
  {| xaxis := None; yaxis := None;
     base := VUndefined;
     orientation := VStr "v";
     ids := None;
     x := [VNum 1; VNum 2; VNum 3];
     y := [VNum 10; VNum 20];
     marker := None |}.

(** [{x: [10, 20], y: [1, 2, 3], orientation: 'h', base: 0,
      ids: ['a', 'b']}] *)
Definition trace_h : trace :=
  {| xaxis := Some "x"; yaxis := Some "y";
     base := VNum 0;
     orientation := VStr "h";
     ids := Some [VStr "a"; VStr "b"];
     x := [VNum 10; VNum 20];
     y := [VNum 1; VNum 2; VNum 3];
     marker := None |}.

End CalcExample.

(** ** A layout and objects to run the helpers on *)

Module GeometryExample.

Import DomainRef PixelCalc.

(** [Math.log10] on the few numbers whose logarithm is a whole number;
    enough for the examples. *)
Definition log10 (v : num) : num :=
  match v with
  | Num q =>
      if Qeq_bool q 1 then Num 0
      else if Qeq_bool q 10 then Num 1
      else if Qeq_bool q 100 then Num 2
      else if Qeq_bool q 1000 then Num 3
      else NaN
  | _ => NaN
  end.

(** Axes [x] and [y] are linear, [x2] and [y2] are log axes; the domain of
    the x axes occupies the pixels from 100 to 400, that of the y axes the
    pixels from 350 (bottom) up to 50 (top); the canvas is 500 by 400. *)
Definition layout : Layout :=
  {| axes :=
       [ ("x",  {| ax_type := linear; ax_range := (0, 10); ax_pixels := (100, 400) |});
         ("y",  {| ax_type := linear; ax_range := (0, 4);  ax_pixels := (350, 50) |});
         ("x2", {| ax_type := log;    ax_range := (0, 3);  ax_pixels := (100, 400) |});
         ("y2", {| ax_type := log;    ax_range := (0, 2);  ax_pixels := (350, 50) |}) ];
     paper_x := (0, 500);
     paper_y := (400, 0) |}.

(** An image on the domains of [x2] and [y]. *)
Definition image (xanchor yanchor : string) : Image.t :=
  {| Image.x := Num (1 # 5);
     Image.y := Num (1 # 2);
     Image.sizex := Num (3 # 10);
     Image.sizey := Num (1 # 5);
     Image.source := "https://images.plot.ly/language-icons/api-home/js-logo.png";
     Image.xanchor := xanchor;
     Image.yanchor := yanchor;
     Image.xref := "x2 domain";
     Image.yref := "y domain";
     Image.sizing := "stretch" |}.

(** An image in the data coordinates of the log axes [x2] and [y2]. *)
Definition image_on_log : Image.t :=
  {| Image.x := Num 1;
     Image.y := Num 1;
     Image.sizex := Num 1;
     Image.sizey := Num (1 # 2);
     Image.source := "https://images.plot.ly/language-icons/api-home/js-logo.png";
     Image.xanchor := "left";
     Image.yanchor := "bottom";
     Image.xref := "x2";
     Image.yref := "y2";
     Image.sizing := "stretch" |}.

(** An image on the domain of [x9], an axis that the layout does not have,
    with a [yanchor] that is no anchor. *)
Definition image_off_layout : Image.t :=
  {| Image.x := Num (1 # 5);
     Image.y := Num (1 # 2);
     Image.sizex := Num (3 # 10);
     Image.sizey := Num (1 # 5);
     Image.source := "https://images.plot.ly/language-icons/api-home/js-logo.png";
     Image.xanchor := "left";
     Image.yanchor := "centre";
     Image.xref := "x9 domain";
     Image.yref := "y domain";
     Image.sizing := "stretch" |}.

(** A rectangle in the data coordinates of [x] and on the domain of [y]. *)
Definition rect : Shape.t :=
  {| Shape.xref := "x"; Shape.yref := "y domain";
     Shape.x0 := Num 2; Shape.y0 := Num (1 # 4);
     Shape.x1 := Num 3; Shape.y1 := Num (7 # 10);
     Shape.type := "rect";
     Shape.line_color := "rgb(50, 100, 150)" |}.

(** A rectangle in the data coordinates of the log axis [x2]. *)
Definition rect_on_log : Shape.t :=
  {| Shape.xref := "x2"; Shape.yref := "paper";
     Shape.x0 := Num 10; Shape.y0 := Num (1 # 5);
     Shape.x1 := Num 100; Shape.y1 := Num (4 # 5);
     Shape.type := "rect";
     Shape.line_color := "rgb(50, 100, 150)" |}.

End GeometryExample.
(** * Properties of [calc] *)

Module BarCalcFacts.

Import BarCalc.

Local Open Scope nat_scope.

(** ** JavaScript truthiness and the [msUTC] flag *)

Lemma truthy_or (a b : value) :
  truthy (js_or a b) = truthy a || truthy b.
Proof.
  unfold js_or. destruct (truthy a) eqn:Ha; simpl; auto.
Qed.

Lemma msUTC_spec (t : trace) :
  msUTC t = truthy (base t) || is_zero (base t).
Proof.
  unfold msUTC. now rewrite truthy_or.
Qed.

(** ** The loop that builds the calculated data *)

Section Loop.

Variable String_ : value -> string.
Variable t : trace.
Variables pos_ size_ : list value.

Local Abbreviation cd := (make_cd String_ t pos_ size_).

Lemma make_cd_length :
  List.length cd = Nat.min (List.length pos_) (List.length size_).
Proof.
  unfold make_cd. now rewrite length_map, length_seq.
Qed.

Lemma make_cd_nth (i : nat) :
  i < Nat.min (List.length pos_) (List.length size_) ->
  nth_error cd i = Some (cd_at String_ t pos_ size_ i).
Proof.
  intros Hi. unfold make_cd.
  rewrite nth_error_map, nth_error_seq.
  apply Nat.ltb_lt in Hi. now rewrite Hi.
Qed.

Lemma make_cd_None (i : nat) :
  Nat.min (List.length pos_) (List.length size_) <= i ->
  nth_error cd i = None.
Proof.
  intros Hi. apply nth_error_None. now rewrite make_cd_length.
Qed.

End Loop.

Lemma at_index_nth_error (arr : list value) (i : nat) :
  i < List.length arr -> nth_error arr i = Some (at_index arr i).
Proof.
  intros Hi. unfold at_index. now apply nth_error_nth'.
Qed.

(** ** Steps that only decorate *)

Lemma same_core_refl (r : cdrecord) : same_core r r.
Proof. now repeat split. Qed.

Lemma same_core_trans (a b c : cdrecord) :
  same_core a b -> same_core b c -> same_core a c.
Proof.
  unfold same_core. intros (H1 & H2 & H3) (H4 & H5 & H6).
  repeat split; congruence.
Qed.

Lemma Forall2_same_core_refl (cd : list cdrecord) : Forall2 same_core cd cd.
Proof.
  induction cd; constructor; auto using same_core_refl.
Qed.

Lemma Forall2_same_core_trans (a b c : list cdrecord) :
  Forall2 same_core a b -> Forall2 same_core b c -> Forall2 same_core a c.
Proof.
  intros Hab. revert c.
  induction Hab; intros c Hbc; inversion Hbc; subst; constructor;
    eauto using same_core_trans.
Qed.

Lemma Forall2_same_core_nth (a b : list cdrecord) (i : nat) (r : cdrecord) :
  Forall2 same_core a b ->
  nth_error a i = Some r ->
  exists r', nth_error b i = Some r' /\ same_core r r'.
Proof.
  intros Hab. revert i.
  induction Hab as [|u v a b Huv Hab IH]; intros [|i] Hi; simpl in *;
    try discriminate.
  - injection Hi as <-. eauto.
  - eauto.
Qed.

(** A step that hands its records back unchanged decorates. *)
Lemma decorates_nothing : decorates (fun cd _ => cd).
Proof.
  intros cd t. apply Forall2_same_core_refl.
Qed.

Lemma is_str_true (v : value) (lit : string) :
  is_str v lit = true <-> v = VStr lit.
Proof.
  destruct v; simpl; split; try discriminate.
  - intros H. apply String.eqb_eq in H. now subst.
  - intros H. injection H as ->. apply String.eqb_refl.
Qed.

Lemma is_str_false (v : value) (lit : string) :
  is_str v lit = false <-> v <> VStr lit.
Proof.
  rewrite <- is_str_true. destruct (is_str v lit); split; congruence.
Qed.

(** ** [calc] as a whole *)

Section CalcFacts.

Variables gd axis : Type.
Variable getFromId : gd -> string -> option axis.
Variable makeCalcdata : axis -> trace -> string -> bool -> list value.
Variable hasColorscale : trace -> string -> bool.
Variable colorscaleCalc : gd -> trace -> colorscale_opts -> trace.
Variable arraysToCalcdata : list cdrecord -> trace -> list cdrecord.
Variable calcSelection : list cdrecord -> trace -> list cdrecord.
Variable String_ : value -> string.

Local Abbreviation calc_ :=
  (calc gd axis getFromId makeCalcdata hasColorscale colorscaleCalc
        arraysToCalcdata calcSelection String_).
Local Abbreviation size_pos_ := (size_pos gd axis getFromId makeCalcdata).

Lemma size_pos_resolved (g : gd) (t : trace) (xa ya : axis) :
  getFromId g (or_default (xaxis t) "x") = Some xa ->
  getFromId g (or_default (yaxis t) "y") = Some ya ->
  size_pos_ g t =
  Ok (if is_str (orientation t) "h"
      then (makeCalcdata xa t "x" (msUTC t), makeCalcdata ya t "y" (msUTC t))
      else (makeCalcdata ya t "y" (msUTC t), makeCalcdata xa t "x" (msUTC t))).
Proof.
  intros Hx Hy. unfold size_pos. rewrite Hx, Hy.
  now destruct (is_str (orientation t) "h").
Qed.

(** With both arrays built and decorating steps, [calc] returns, and its
    records are those of the loop up to what the steps attach. *)
Lemma calc_records (g : gd) (t : trace) (size_ pos_ : list value) :
  size_pos_ g t = Ok (size_, pos_) ->
  decorates arraysToCalcdata ->
  decorates calcSelection ->
  exists cd t',
    calc_ g t = Ok (cd, t') /\
    Forall2 same_core (make_cd String_ t pos_ size_) cd.
Proof.
  intros Hsp Ha Hs. unfold calc. rewrite Hsp. simpl.
  eexists. eexists. split; [reflexivity|].
  eapply Forall2_same_core_trans; [apply Ha | apply Hs].
Qed.

Lemma calc_record_at (g : gd) (t : trace) (size_ pos_ : list value) :
  size_pos_ g t = Ok (size_, pos_) ->
  decorates arraysToCalcdata ->
  decorates calcSelection ->
  exists cd t',
    calc_ g t = Ok (cd, t') /\
    List.length cd = Nat.min (List.length pos_) (List.length size_) /\
    forall i, i < List.length cd ->
      exists r, nth_error cd i = Some r /\
                same_core (cd_at String_ t pos_ size_ i) r.
Proof.
  intros Hsp Ha Hs.
  destruct (calc_records g t size_ pos_ Hsp Ha Hs) as (cd & t' & Hc & Hcore).
  exists cd, t'. split; [exact Hc|].
  pose proof (Forall2_length Hcore) as Hlen.
  rewrite make_cd_length in Hlen.
  split; [now symmetry|].
  intros i Hi. rewrite <- Hlen in Hi.
  eapply Forall2_same_core_nth; [exact Hcore|].
  now apply make_cd_nth.
Qed.

(** C1.  When both axes of the trace are found (and the later steps only
    decorate the records), [calc] returns a sequence as long as the
    shorter of the position and size arrays, whose [i]-th record has
    [p = pos[i]] and [s = size[i]], both inside the arrays: nothing past
    the shorter array is kept and nothing is padded. *)
Theorem calc_length_min_and_zip (g : gd) (t : trace) (xa ya : axis) :
  getFromId g (or_default (xaxis t) "x") = Some xa ->
  getFromId g (or_default (yaxis t) "y") = Some ya ->
  decorates arraysToCalcdata ->
  decorates calcSelection ->
  exists size_ pos_ cd t',
    size_pos_ g t = Ok (size_, pos_) /\
    calc_ g t = Ok (cd, t') /\
    List.length cd = Nat.min (List.length pos_) (List.length size_) /\
    (forall i, i < List.length cd ->
       exists r, nth_error cd i = Some r /\
                 nth_error pos_ i = Some (p r) /\
                 nth_error size_ i = Some (s r)) /\
    (forall i, Nat.min (List.length pos_) (List.length size_) <= i ->
       nth_error cd i = None).
Proof.
  intros Hx Hy Ha Hs.
  pose proof (size_pos_resolved g t xa ya Hx Hy) as Hsp.
  destruct (is_str (orientation t) "h");
    match type of Hsp with _ = Ok (?a, ?b) => exists a, b end;
    destruct (calc_record_at g t _ _ Hsp Ha Hs) as (cd & t' & Hc & Hlen & Hrec);
    exists cd, t'; (split; [exact Hsp|]); (split; [exact Hc|]);
    (split; [exact Hlen|]); split.
  all: try (intros i Hi; apply nth_error_None; lia).
  all: intros i Hi; destruct (Hrec i Hi) as (r & Hr & Hp & Hs' & _);
    exists r; (split; [exact Hr|]); simpl in Hp, Hs'; rewrite Hp, Hs';
    split; apply at_index_nth_error; lia.
Qed.

(** C7.  The orientation is read once for the whole trace: with
    [orientation === 'h'] the size array is the x axis' coercion of the
    [x] field and the position array the y axis' coercion of the [y]
    field, for every record; with any other orientation the two roles are
    exchanged, again for every record. *)
Theorem calc_orientation (g : gd) (t : trace) (xa ya : axis) :
  getFromId g (or_default (xaxis t) "x") = Some xa ->
  getFromId g (or_default (yaxis t) "y") = Some ya ->
  decorates arraysToCalcdata ->
  decorates calcSelection ->
  let xs := makeCalcdata xa t "x" (msUTC t) in
  let ys := makeCalcdata ya t "y" (msUTC t) in
  exists cd t',
    calc_ g t = Ok (cd, t') /\
    (orientation t = VStr "h" ->
       size_pos_ g t = Ok (xs, ys) /\
       forall i r, nth_error cd i = Some r ->
         s r = at_index xs i /\ p r = at_index ys i) /\
    (orientation t <> VStr "h" ->
       size_pos_ g t = Ok (ys, xs) /\
       forall i r, nth_error cd i = Some r ->
         s r = at_index ys i /\ p r = at_index xs i).
Proof.
  intros Hx Hy Ha Hs xs ys.
  pose proof (size_pos_resolved g t xa ya Hx Hy) as Hsp.
  fold xs ys in Hsp.
  assert (Hrec : forall size_ pos_, size_pos_ g t = Ok (size_, pos_) ->
            exists cd t', calc_ g t = Ok (cd, t') /\
              forall i r, nth_error cd i = Some r ->
                s r = at_index size_ i /\ p r = at_index pos_ i).
  { intros size_ pos_ H.
    destruct (calc_record_at g t _ _ H Ha Hs) as (cd & t' & Hc & _ & Hrec).
    exists cd, t'. split; [exact Hc|]. intros i r Hr.
    assert (Hi : i < List.length cd) by (apply nth_error_Some; congruence).
    destruct (Hrec i Hi) as (r' & Hr' & Hp & Hs' & _).
    assert (r' = r) by congruence. subst r'. now split. }
  destruct (is_str (orientation t) "h") eqn:Hh;
    destruct (Hrec _ _ Hsp) as (cd & t' & Hc & Hall); exists cd, t';
    (split; [exact Hc|]); split; intros Ho.
  - split; [exact Hsp | exact Hall].
  - apply is_str_true in Hh. contradiction.
  - apply is_str_false in Hh. contradiction.
  - split; [exact Hsp | exact Hall].
Qed.

(** C8.  The flag handed to [makeCalcdata] is true exactly when
    [trace.base] is truthy or is the number zero, and the two arrays are
    built with that one flag: the size array and the position array are
    the results of the two [makeCalcdata] calls, each made with it. *)
Theorem msUTC_flag (g : gd) (t : trace) (xa ya : axis) :
  getFromId g (or_default (xaxis t) "x") = Some xa ->
  getFromId g (or_default (yaxis t) "y") = Some ya ->
  exists flag : bool,
    (flag = true <->
       truthy (base t) = true \/ exists q, base t = VNum q /\ (q == 0)%Q) /\
    size_pos_ g t =
      Ok (if is_str (orientation t) "h"
          then (makeCalcdata xa t "x" flag, makeCalcdata ya t "y" flag)
          else (makeCalcdata ya t "y" flag, makeCalcdata xa t "x" flag)).
Proof.
  intros Hx Hy. exists (msUTC t). split.
  - rewrite msUTC_spec, orb_true_iff. split; intros [H|H]; auto.
    + right. destruct (base t); simpl in H; try discriminate.
      exists q. split; [reflexivity | now apply Qeq_bool_eq].
    + right. destruct H as (q & -> & Hq). simpl. now apply Qeq_eq_bool.
  - now apply size_pos_resolved.
Qed.

(** C9.  When the trace has an [ids] array, the [i]-th record carries
    [id = String(trace.ids[i])] for every [i] below the length of the
    calculated data; when it has none, no record carries an [id]. *)
Theorem calc_ids (g : gd) (t : trace) (xa ya : axis) :
  getFromId g (or_default (xaxis t) "x") = Some xa ->
  getFromId g (or_default (yaxis t) "y") = Some ya ->
  decorates arraysToCalcdata ->
  decorates calcSelection ->
  exists cd t',
    calc_ g t = Ok (cd, t') /\
    (forall l, ids t = Some l ->
       forall i, i < List.length cd ->
         exists r, nth_error cd i = Some r /\
                   id r = Some (String_ (at_index l i))) /\
    (ids t = None -> forall r, In r cd -> id r = None).
Proof.
  intros Hx Hy Ha Hs.
  pose proof (size_pos_resolved g t xa ya Hx Hy) as Hsp.
  assert (Hex : exists size_ pos_, size_pos_ g t = Ok (size_, pos_))
    by (destruct (is_str (orientation t) "h"); eauto).
  clear Hsp. destruct Hex as (size_ & pos_ & Hsp).
  destruct (calc_record_at g t _ _ Hsp Ha Hs) as (cd & t' & Hc & _ & Hrec).
  exists cd, t'. split; [exact Hc|]. split.
  - intros l Hl i Hi. destruct (Hrec i Hi) as (r & Hr & _ & _ & Hid).
    exists r. split; [exact Hr|]. rewrite Hid. simpl. now rewrite Hl.
  - intros Hl r Hin. destruct (In_nth_error _ _ Hin) as (i & Hr).
    assert (Hi : i < List.length cd) by (apply nth_error_Some; congruence).
    destruct (Hrec i Hi) as (r' & Hr' & _ & _ & Hid).
    assert (r' = r) by congruence. subst r'.
    rewrite Hid. simpl. now rewrite Hl.
Qed.

End CalcFacts.

(** ** The example traces *)

(** The first scenario: [{x: [1, 2, 3], y: [10, 20], orientation: 'v'}]
    gives exactly [[{p: 1, s: 10}, {p: 2, s: 20}]]; the third x is dropped. *)
Example calc_trace_v :
  CalcExample.calc CalcExample.plot CalcExample.trace_v =
  Ok ([ {| p := VNum 1; s := VNum 10; id := None; extra := [] |};
        {| p := VNum 2; s := VNum 20; id := None; extra := [] |} ],
      CalcExample.trace_v).
Proof. reflexivity. Qed.

Example calc_trace_h :
  CalcExample.calc CalcExample.plot CalcExample.trace_h =
  Ok ([ {| p := VNum 1; s := VNum 10; id := Some "a"; extra := [] |};
        {| p := VNum 2; s := VNum 20; id := Some "b"; extra := [] |} ],
      CalcExample.trace_h).
Proof. reflexivity. Qed.

Example calc_unknown_axis :
  CalcExample.calc ["x"] CalcExample.trace_v = Throw (UnknownAxis "y").
Proof. reflexivity. Qed.

Example msUTC_examples :
  msUTC CalcExample.trace_v = false /\ msUTC CalcExample.trace_h = true.
Proof. split; reflexivity. Qed.

Lemma calc_length_min_and_zip_witness :
  exists size_ pos_ cd t',
    size_pos CalcExample.gd CalcExample.axis CalcExample.getFromId
      CalcExample.makeCalcdata CalcExample.plot CalcExample.trace_v
      = Ok (size_, pos_) /\
    CalcExample.calc CalcExample.plot CalcExample.trace_v = Ok (cd, t') /\
    List.length cd = Nat.min (List.length pos_) (List.length size_) /\
    (forall i, i < List.length cd ->
       exists r, nth_error cd i = Some r /\
                 nth_error pos_ i = Some (p r) /\
                 nth_error size_ i = Some (s r)) /\
    (forall i, Nat.min (List.length pos_) (List.length size_) <= i ->
       nth_error cd i = None).
Proof.
  apply (calc_length_min_and_zip CalcExample.gd CalcExample.axis
           CalcExample.getFromId CalcExample.makeCalcdata
           CalcExample.hasColorscale CalcExample.colorscaleCalc
           CalcExample.arraysToCalcdata CalcExample.calcSelection
           CalcExample.String_ CalcExample.plot CalcExample.trace_v "x" "y").
  - reflexivity.
  - reflexivity.
  - exact decorates_nothing.
  - exact decorates_nothing.
Defined.

Lemma calc_orientation_witness :
  exists cd t',
    CalcExample.calc CalcExample.plot CalcExample.trace_h = Ok (cd, t') /\
    (orientation CalcExample.trace_h = VStr "h" ->
       size_pos CalcExample.gd CalcExample.axis CalcExample.getFromId
         CalcExample.makeCalcdata CalcExample.plot CalcExample.trace_h
         = Ok ([VNum 10; VNum 20], [VNum 1; VNum 2; VNum 3]) /\
       forall i r, nth_error cd i = Some r ->
         s r = at_index [VNum 10; VNum 20] i /\
         p r = at_index [VNum 1; VNum 2; VNum 3] i) /\
    (orientation CalcExample.trace_h <> VStr "h" ->
       size_pos CalcExample.gd CalcExample.axis CalcExample.getFromId
         CalcExample.makeCalcdata CalcExample.plot CalcExample.trace_h
         = Ok ([VNum 1; VNum 2; VNum 3], [VNum 10; VNum 20]) /\
       forall i r, nth_error cd i = Some r ->
         s r = at_index [VNum 1; VNum 2; VNum 3] i /\
         p r = at_index [VNum 10; VNum 20] i).
Proof.
  apply (calc_orientation CalcExample.gd CalcExample.axis
           CalcExample.getFromId CalcExample.makeCalcdata
           CalcExample.hasColorscale CalcExample.colorscaleCalc
           CalcExample.arraysToCalcdata CalcExample.calcSelection
           CalcExample.String_ CalcExample.plot CalcExample.trace_h "x" "y").
  - reflexivity.
  - reflexivity.
  - exact decorates_nothing.
  - exact decorates_nothing.
Defined.

Lemma msUTC_flag_witness :
  exists flag : bool,
    (flag = true <->
       truthy (base CalcExample.trace_h) = true \/
       exists q, base CalcExample.trace_h = VNum q /\ (q == 0)%Q) /\
    size_pos CalcExample.gd CalcExample.axis CalcExample.getFromId
      CalcExample.makeCalcdata CalcExample.plot CalcExample.trace_h =
    Ok (if is_str (orientation CalcExample.trace_h) "h"
        then (CalcExample.makeCalcdata "x" CalcExample.trace_h "x" flag,
              CalcExample.makeCalcdata "y" CalcExample.trace_h "y" flag)
        else (CalcExample.makeCalcdata "y" CalcExample.trace_h "y" flag,
              CalcExample.makeCalcdata "x" CalcExample.trace_h "x" flag)).
Proof.
  apply (msUTC_flag CalcExample.gd CalcExample.axis CalcExample.getFromId
           CalcExample.makeCalcdata
           CalcExample.plot CalcExample.trace_h "x" "y").
  - reflexivity.
  - reflexivity.
Defined.

Lemma calc_ids_witness :
  exists cd t',
    CalcExample.calc CalcExample.plot CalcExample.trace_h = Ok (cd, t') /\
    (forall l, ids CalcExample.trace_h = Some l ->
       forall i, i < List.length cd ->
         exists r, nth_error cd i = Some r /\
                   id r = Some (CalcExample.String_ (at_index l i))) /\
    (ids CalcExample.trace_h = None -> forall r, In r cd -> id r = None).
Proof.
  apply (calc_ids CalcExample.gd CalcExample.axis
           CalcExample.getFromId CalcExample.makeCalcdata
           CalcExample.hasColorscale CalcExample.colorscaleCalc
           CalcExample.arraysToCalcdata CalcExample.calcSelection
           CalcExample.String_ CalcExample.plot CalcExample.trace_h "x" "y").
  - reflexivity.
  - reflexivity.
  - exact decorates_nothing.
  - exact decorates_nothing.
Defined.

End BarCalcFacts.

(** * Properties of the reference strings *)

Module RefFacts.

Import DomainRef.

Local Open Scope nat_scope.

(** ** Strings and their ends *)

Lemma length_app (a b : string) :
  String.length (a ++ b) = String.length a + String.length b.
Proof.
  induction a as [|c a IH]; simpl; [reflexivity | now rewrite IH].
Qed.

Lemma substring_all (b : string) : substring 0 (String.length b) b = b.
Proof.
  induction b as [|c b IH]; simpl; [reflexivity | now rewrite IH].
Qed.

Lemma substring_app_tail (a b : string) :
  substring (String.length a) (String.length b) (a ++ b) = b.
Proof.
  induction a as [|c a IH]; simpl; [apply substring_all | exact IH].
Qed.

Lemma substring_app_head (a b : string) :
  substring 0 (String.length a) (a ++ b) = a.
Proof.
  induction a as [|c a IH]; simpl.
  - now destruct b.
  - now rewrite IH.
Qed.

(** A string is its first [i] characters followed by the others. *)
Lemma substring_split (str : string) (i : nat) :
  i <= String.length str ->
  str = substring 0 i str ++ substring i (String.length str - i) str.
Proof.
  revert i. induction str as [|c str IH]; intros [|i] Hi; simpl in *.
  - reflexivity.
  - lia.
  - now rewrite substring_all.
  - f_equal. apply IH. lia.
Qed.

Lemma ends_with_app (suffix a : string) : ends_with suffix (a ++ suffix) = true.
Proof.
  unfold ends_with. rewrite length_app.
  replace (String.length a + String.length suffix - String.length suffix)
    with (String.length a) by lia.
  rewrite substring_app_tail, String.eqb_refl.
  replace (String.length suffix <=? String.length a + String.length suffix)
    with true by (symmetry; apply Nat.leb_le; lia).
  reflexivity.
Qed.

Lemma strip_suffix_app (suffix a : string) :
  strip_suffix suffix (a ++ suffix) = a.
Proof.
  unfold strip_suffix. rewrite length_app.
  replace (String.length a + String.length suffix - String.length suffix)
    with (String.length a) by lia.
  apply substring_app_head.
Qed.

(** A string that ends with [suffix] is what is left of it without the
    suffix, followed by the suffix. *)
Lemma ends_with_split (suffix str : string) :
  ends_with suffix str = true ->
  str = strip_suffix suffix str ++ suffix.
Proof.
  unfold ends_with, strip_suffix. intros H.
  apply andb_true_iff in H. destruct H as [Hle Heq].
  apply Nat.leb_le in Hle. apply String.eqb_eq in Heq.
  set (n := String.length str) in *. set (k := String.length suffix) in *.
  pose proof (substring_split str (n - k)) as Hsplit. fold n in Hsplit.
  replace (n - (n - k)) with k in Hsplit by lia.
  rewrite Heq in Hsplit. apply Hsplit. lia.
Qed.

Lemma eqb_length_neq (a b : string) :
  String.length a <> String.length b -> (a =? b)%string = false.
Proof.
  intros H. apply String.eqb_neq. intros ->. now apply H.
Qed.

(** ** Axis ids *)

Lemma all_digits_app_domain (b : string) :
  all_digits (b ++ domain_suffix) = false.
Proof.
  induction b as [|c b IH]; simpl; [reflexivity|].
  rewrite IH. apply andb_false_r.
Qed.

Lemma is_axis_id_app_domain (b : string) :
  is_axis_id (b ++ domain_suffix) = false.
Proof.
  destruct b as [|c b]; simpl; [reflexivity|].
  rewrite all_digits_app_domain. apply andb_false_r.
Qed.

Lemma axis_id_not_domain (a : string) :
  is_axis_id a = true -> ends_with domain_suffix a = false.
Proof.
  intros Ha. destruct (ends_with domain_suffix a) eqn:He; [|reflexivity].
  apply ends_with_split in He. rewrite He in Ha.
  now rewrite is_axis_id_app_domain in Ha.
Qed.

Lemma axis_id_first (a : string) :
  is_axis_id a = true ->
  exists rest, a = String "x" rest \/ a = String "y" rest.
Proof.
  destruct a as [|c rest]; simpl; [discriminate|]. intros H.
  apply andb_true_iff in H. destruct H as [H _].
  apply orb_true_iff in H. exists rest.
  destruct H as [H|H]; apply Ascii.eqb_eq in H; subst; auto.
Qed.

Lemma getRefType_axis_id (a : string) :
  is_axis_id a = true -> getRefType a = range.
Proof.
  intros Ha. unfold getRefType. rewrite (axis_id_not_domain a Ha).
  destruct (axis_id_first a Ha) as (rest & [-> | ->]); reflexivity.
Qed.

(** Whatever stands before it, [" domain"] makes a domain reference. *)
Lemma getRefType_app_domain (a : string) :
  getRefType (a ++ " domain") = domain.
Proof.
  unfold getRefType.
  rewrite !eqb_length_neq by (rewrite length_app; simpl; lia).
  change " domain" with domain_suffix.
  now rewrite (ends_with_app domain_suffix a).
Qed.

Lemma classify_app_domain (a : string) :
  classify (a ++ " domain") = Ok {| kind := domain; axisId := Some a |}.
Proof.
  unfold classify.
  rewrite eqb_length_neq by (rewrite length_app; simpl; lia).
  rewrite getRefType_app_domain.
  change " domain" with domain_suffix.
  now rewrite (strip_suffix_app domain_suffix a).
Qed.

Lemma classify_axis_id (a : string) :
  is_axis_id a = true ->
  classify a = Ok {| kind := range; axisId := Some a |}.
Proof.
  intros Ha. unfold classify. rewrite (getRefType_axis_id a Ha).
  destruct a; [discriminate | reflexivity].
Qed.

(** Every string but the empty one is classified. *)
Lemma classify_total (ar : string) :
  ar <> "" -> exists c, classify ar = Ok c.
Proof.
  intros H. unfold classify.
  apply String.eqb_neq in H. rewrite H.
  destruct (getRefType ar); eauto.
Qed.

(** C2.  The reference strings that [makeAxRef] builds are classified as
    what they were built from: for every axis id [a], the range reference
    is [a] itself and is classified as range on [a], the domain reference
    is [a ++ " domain"] and is classified as domain on [a], and the paper
    reference is ["paper"], classified as paper.  Classification is a
    function that answers on every non-empty string; so ["paper"],
    ["x2 domain"] and ["y"] are classified as paper, domain on [x2] and
    range on [y]. *)
Theorem classify_makeAxRef (a : string) :
  is_axis_id a = true ->
  (makeAxRef a "range" = Ok a /\
   classify a = Ok {| kind := range; axisId := Some a |}) /\
  (makeAxRef a "domain" = Ok (a ++ " domain") /\
   classify (a ++ " domain") = Ok {| kind := domain; axisId := Some a |}) /\
  (makeAxRef a "paper" = Ok "paper" /\
   classify "paper" = Ok {| kind := paper; axisId := None |}) /\
  classify "x2 domain" = Ok {| kind := domain; axisId := Some "x2" |} /\
  classify "y" = Ok {| kind := range; axisId := Some "y" |} /\
  (forall ar, ar <> "" -> exists c, classify ar = Ok c).
Proof.
  intros Ha. repeat split; try reflexivity.
  - now apply classify_axis_id.
  - apply classify_app_domain.
  - apply classify_total.
Qed.

Lemma classify_makeAxRef_witness :
  is_axis_id "y2" = true /\
  classify "y2" = Ok {| kind := range; axisId := Some "y2" |} /\
  classify "y2 domain" = Ok {| kind := domain; axisId := Some "y2" |}.
Proof.
  split; [reflexivity|].
  pose proof (classify_makeAxRef "y2" eq_refl) as H.
  split; [exact (proj2 (proj1 H)) | exact (proj2 (proj1 (proj2 H)))].
Defined.

End RefFacts.

(** * Properties of the bounding boxes *)

Module GeometryFacts.

Import DomainRef.

Section Generic.

Variable layout : Type.
Variable id2name : string -> string.
Variable mapRangeToPixel : layout -> string -> num -> bool -> result num.
Variable mapDomainToPixel : layout -> string -> num -> result num.
Variable mapPaperToPixel : layout -> string -> num -> result num.
Variable log10 : num -> num.

Local Abbreviation map_ :=
  (mapAROCoordToPixel layout id2name mapRangeToPixel mapDomainToPixel
                      mapPaperToPixel).
Local Abbreviation shapeToBBox_ :=
  (shapeToBBox layout id2name mapRangeToPixel mapDomainToPixel mapPaperToPixel).
Local Abbreviation x_edges_ :=
  (x_edges layout id2name mapRangeToPixel mapDomainToPixel mapPaperToPixel).
Local Abbreviation y_edges_ :=
  (y_edges layout id2name mapRangeToPixel mapDomainToPixel mapPaperToPixel).
Local Abbreviation imageToBBox_ :=
  (imageToBBox layout id2name mapRangeToPixel mapDomainToPixel mapPaperToPixel).
Local Abbreviation annotationTest_expected_ :=
  (annotationTest_expected layout id2name mapRangeToPixel mapDomainToPixel
                           mapPaperToPixel log10).

(** An offset that is left out counts as [0]. *)
Lemma offset_default (l : layout) (axref : refname) (aro : ARO)
    (c : coordname) (nolog : bool) :
  map_ l axref aro c Undefined nolog = map_ l axref aro c (Num 0) nolog.
Proof. reflexivity. Qed.

(** The mapping looks at the reference and at the coordinate only. *)
Lemma map_ext (l : layout) (axref : refname) (aro aro' : ARO)
    (c c' : coordname) (offset : num) (nolog : bool) :
  aro_ref aro axref = aro_ref aro' axref ->
  aro_coord aro c = aro_coord aro' c' ->
  map_ l axref aro c offset nolog = map_ l axref aro' c' offset nolog.
Proof.
  intros Hr Hc. unfold mapAROCoordToPixel. now rewrite Hr, Hc.
Qed.

(** C5.  The box of a shape: [x] is the pixel of [x0] and the width the
    pixel of [x1] minus [x], both along [xref]; [y] is the pixel of [y1]
    (the two vertical coordinates change places) and the height the pixel
    of [y0] minus [y], both along [yref]. *)
Theorem shapeToBBox_box (l : layout) (sh : Shape.t) (px0 px1 py0 py1 : num) :
  map_ l xref (AShape sh) cx0 Undefined false = Ok px0 ->
  map_ l xref (AShape sh) cx1 Undefined false = Ok px1 ->
  map_ l yref (AShape sh) cy1 Undefined false = Ok py1 ->
  map_ l yref (AShape sh) cy0 Undefined false = Ok py0 ->
  shapeToBBox_ l (AShape sh) =
  Ok {| bbox_x := px0;
        bbox_width := sub px1 px0;
        bbox_y := py1;
        bbox_height := sub py0 py1 |}.
Proof.
  intros Hx0 Hx1 Hy1 Hy0. unfold shapeToBBox.
  rewrite Hx0. simpl. rewrite Hx1. simpl.
  rewrite Hy1. simpl. rewrite Hy0. reflexivity.
Qed.

(** A shape has a box exactly when its four coordinates have a pixel. *)
Lemma shapeToBBox_Ok (l : layout) (aro : ARO) (b : bbox) :
  shapeToBBox_ l aro = Ok b ->
  exists px0 px1 py0 py1,
    map_ l xref aro cx0 Undefined false = Ok px0 /\
    map_ l xref aro cx1 Undefined false = Ok px1 /\
    map_ l yref aro cy1 Undefined false = Ok py1 /\
    map_ l yref aro cy0 Undefined false = Ok py0.
Proof.
  unfold shapeToBBox. intros H.
  destruct (map_ l xref aro cx0 Undefined false) as [px0|]; [|discriminate].
  destruct (map_ l xref aro cx1 Undefined false) as [px1|]; [|discriminate].
  destruct (map_ l yref aro cy1 Undefined false) as [py1|]; [|discriminate].
  destruct (map_ l yref aro cy0 Undefined false) as [py0|]; [|discriminate].
  now exists px0, px1, py0, py1.
Qed.

(** Two mappings one after the other, as a pair. *)
Local Abbreviation pair_of m1 m2 :=
  (bind m1 (fun e0 => bind m2 (fun e1 => Ok (e0, e1)))).

(** C3, as the code has it.  The horizontal edges of an image are the
    pixels of [x], [x + sizex] for ['left'], of [x - sizex], [x] for
    ['right'] and of [x - sizex/2], [x + sizex/2] for ['center'].  The
    vertical edges follow the same pattern with ['bottom'] in the place
    of ['left'] and ['top'] in the place of ['right']: [y], [y + sizey]
    for ['bottom'], [y - sizey], [y] for ['top'], and [y - sizey/2],
    [y + sizey/2] for ['middle'].  Any other [xanchor] throws the anchor
    error; any other [yanchor] leaves the image without a box, by the
    anchor error as soon as the horizontal edges have been mapped.  With
    both pairs of edges the box is
    [{x: x0, width: x1 - x0, y: y1, height: y0 - y1}]. *)
Theorem imageToBBox_anchors (l : layout) (img : Image.t) :
  let sx := Image.sizex img in
  let sy := Image.sizey img in
  let half := Num (1 # 2) in
  let mx := fun off => map_ l xref (AImage img) cx off true in
  let my := fun off => map_ l yref (AImage img) cy off true in
  (Image.xanchor img = "left" ->
     x_edges_ l img = pair_of (mx (Num 0)) (mx sx)) /\
  (Image.xanchor img = "right" ->
     x_edges_ l img = pair_of (mx (neg sx)) (mx (Num 0))) /\
  (Image.xanchor img = "center" ->
     x_edges_ l img = pair_of (mx (mul (neg sx) half)) (mx (mul sx half))) /\
  (Image.yanchor img = "bottom" ->
     y_edges_ l img = pair_of (my (Num 0)) (my sy)) /\
  (Image.yanchor img = "top" ->
     y_edges_ l img = pair_of (my (neg sy)) (my (Num 0))) /\
  (Image.yanchor img = "middle" ->
     y_edges_ l img = pair_of (my (mul (neg sy) half)) (my (mul sy half))) /\
  (Image.xanchor img <> "left" -> Image.xanchor img <> "right" ->
   Image.xanchor img <> "center" ->
     imageToBBox_ l img = Throw (Thrown ("Bad xanchor: " ++ Image.xanchor img))) /\
  (Image.yanchor img <> "bottom" -> Image.yanchor img <> "top" ->
   Image.yanchor img <> "middle" ->
     (exists e, imageToBBox_ l img = Throw e) /\
     (forall xs, x_edges_ l img = Ok xs ->
        imageToBBox_ l img =
        Throw (Thrown ("Bad yanchor: " ++ Image.yanchor img)))) /\
  (forall x0 x1 y0 y1,
     x_edges_ l img = Ok (x0, x1) ->
     y_edges_ l img = Ok (y0, y1) ->
     imageToBBox_ l img =
     Ok {| bbox_x := x0;
           bbox_width := sub x1 x0;
           bbox_y := y1;
           bbox_height := sub y0 y1 |}).
Proof.
  intros sx sy half mx my.
  repeat match goal with |- _ /\ _ => split end.
  - intros H. unfold x_edges. now rewrite H.
  - intros H. unfold x_edges. now rewrite H.
  - intros H. unfold x_edges. now rewrite H.
  - intros H. unfold y_edges. now rewrite H.
  - intros H. unfold y_edges. now rewrite H.
  - intros H. unfold y_edges. now rewrite H.
  - intros H1 H2 H3. unfold imageToBBox, x_edges.
    apply String.eqb_neq in H1, H2, H3. now rewrite H1, H2, H3.
  - intros H1 H2 H3.
    assert (Hy : y_edges_ l img =
                 Throw (Thrown ("Bad yanchor: " ++ Image.yanchor img))).
    { unfold y_edges. apply String.eqb_neq in H1, H2, H3.
      now rewrite H1, H2, H3. }
    split.
    + unfold imageToBBox. rewrite Hy.
      destruct (x_edges_ l img) as [xs|e]; simpl; eauto.
    + intros xs Hx. unfold imageToBBox. now rewrite Hx, Hy.
  - intros x0 x1 y0 y1 Hx Hy. unfold imageToBBox. now rewrite Hx, Hy.
Qed.

Lemma reftype_eqb_eq (a b : reftype) : reftype_eqb a b = true <-> a = b.
Proof. destruct a, b; simpl; split; congruence. Qed.

(** C4.  The arrow of an annotation is a number of pixels counted from
    the mapped position exactly when its reference is of the pixel kind
    or of another kind than the reference of the position; otherwise it
    is a coordinate along the reference of the position, which is mapped
    like the position and counted from it.  The x arrow is decided from
    [axref] and [xref] and the y arrow from [ayref] and [yref], each on
    its own.  With [axref: 'pixel'] the x arrow is [ax] pixels away from
    the position, whatever the layout and the type of the axis. *)
Theorem annotation_arrow_mode (l : layout) (x0 y0 ax ay : num)
    (xref_ yref_ axref ayref xaxistype yaxistype : string)
    (xabs yabs vx vy : num) :
  let on_log := fun (r t : string) (v : num) =>
    if reftype_eqb (getRefType r) range && (t =? "log") then log10 v else v in
  let x0' := on_log xref_ xaxistype x0 in
  let ax' := on_log axref xaxistype ax in
  let y0' := on_log yref_ yaxistype y0 in
  let ay' := on_log ayref yaxistype ay in
  let anno :=
    AAnnotation
      (aroFromParams_annotation x0' y0' xref_ yref_ "rgb(10, 20, 30)"
         {| opts_ax := ax'; opts_ay := ay';
            opts_axref := axref; opts_ayref := ayref |}) in
  let same_kind := fun a r : string =>
    getRefType a <> pixel /\ getRefType a = getRefType r in
  map_ l xref anno cx (Num 0) true = Ok xabs ->
  map_ l yref anno cy (Num 0) true = Ok yabs ->
  (same_kind axref xref_ -> map_ l xref anno cax (Num 0) true = Ok vx) ->
  (same_kind ayref yref_ -> map_ l yref anno cay (Num 0) true = Ok vy) ->
  exists e,
    annotationTest_expected_ l x0 y0 ax ay xref_ yref_ axref ayref
      xaxistype yaxistype = Ok e /\
    xabspixels e = xabs /\
    yabspixels e = yabs /\
    (axpixels e = true <->
       getRefType axref = pixel \/ getRefType axref <> getRefType xref_) /\
    (aypixels e = true <->
       getRefType ayref = pixel \/ getRefType ayref <> getRefType yref_) /\
    (axpixels e = true -> xpixels e = ax') /\
    (axpixels e = false -> xpixels e = sub vx xabs) /\
    (aypixels e = true -> ypixels e = ay') /\
    (aypixels e = false -> ypixels e = sub vy yabs) /\
    (axref = "pixel" ->
       axpixels e = true /\ xpixels e = ax /\
       add (xabspixels e) (xpixels e) = add xabs ax) /\
    (ayref = "pixel" ->
       aypixels e = true /\ ypixels e = ay /\
       add (yabspixels e) (ypixels e) = add yabs ay).
Proof.
  intros on_log x0' ax' y0' ay' anno same_kind Hx Hy Hax Hay.
  assert (Hmode : forall a r : string,
            (reftype_eqb (getRefType a) pixel
             || negb (reftype_eqb (getRefType a) (getRefType r)) = true <->
             getRefType a = pixel \/ getRefType a <> getRefType r) /\
            (reftype_eqb (getRefType a) pixel
             || negb (reftype_eqb (getRefType a) (getRefType r)) = false ->
             same_kind a r)).
  { intros a r. unfold same_kind.
    destruct (getRefType a), (getRefType r); simpl;
      (split; [split; [intros; try discriminate; auto; right; discriminate
                      | intros [H|H]; congruence]
              | intros; try discriminate; split; congruence]). }
  destruct (Hmode axref xref_) as [Hxiff Hxsame].
  destruct (Hmode ayref yref_) as [Hyiff Hysame].
  unfold annotationTest_expected.
  fold (on_log xref_ xaxistype x0) (on_log axref xaxistype ax)
       (on_log yref_ yaxistype y0) (on_log ayref yaxistype ay).
  fold x0' ax' y0' ay'.
  set (bx := reftype_eqb (getRefType axref) pixel
             || negb (reftype_eqb (getRefType axref) (getRefType xref_))) in *.
  set (by_ := reftype_eqb (getRefType ayref) pixel
              || negb (reftype_eqb (getRefType ayref) (getRefType yref_))) in *.
  assert (Hpx : axref = "pixel" -> bx = true /\ ax' = ax).
  { intros ->. split; [reflexivity|].
    unfold ax', on_log. reflexivity. }
  assert (Hpy : ayref = "pixel" -> by_ = true /\ ay' = ay).
  { intros ->. split; [reflexivity|].
    unfold ay', on_log. reflexivity. }
  erewrite (map_ext l xref _ anno cx cx) by reflexivity.
  rewrite Hx. cbn [bind].
  erewrite (map_ext l yref _ anno cy cy) by reflexivity.
  rewrite Hy. cbn [bind].
  destruct bx eqn:Ebx, by_ eqn:Eby; cbn [bind];
    try (erewrite (map_ext l xref _ anno cax cax) by reflexivity;
         rewrite (Hax (Hxsame eq_refl)); cbn [bind]);
    try (erewrite (map_ext l yref _ anno cay cay) by reflexivity;
         rewrite (Hay (Hysame eq_refl)); cbn [bind]);
    eexists; (split; [reflexivity|]); cbn;
    repeat match goal with |- _ /\ _ => split end;
    try reflexivity; try exact Hxiff; try exact Hyiff;
    try (intros; congruence); try discriminate.
  all: try (intros Hp; destruct (Hpx Hp) as [? ->]; repeat split; congruence).
  all: try (intros Hp; destruct (Hpy Hp) as [? ->]; repeat split; congruence).
Qed.


End Generic.

End GeometryFacts.

(** * The boxes over the pixel mappings of the specification *)

Module PixelFacts.

Import DomainRef PixelCalc.

(** ** Images are mapped without log10 *)

Lemma mapRangeToPixel_nolog (log10 : num -> num) (l : Layout) (axis : string)
    (val : num) :
  mapRangeToPixel log10 l axis val true =
  bind (resolve l axis) (fun a => Ok (on_number (rangeToPixel a) val)).
Proof. reflexivity. Qed.

(** C10.  [imageToBBox] sets [nolog] in every mapping it asks for, of x as
    of y: its result is the same when the range mapping is made to ignore
    the flag and behave as with [nolog] set.  Over the mappings of the
    specification no log10 is therefore taken of an image coordinate, on a
    log axis or not: the box does not depend on what [Math.log10] answers,
    and a range coordinate is scaled into the pixels of the axis as it is. *)
Theorem imageToBBox_nolog :
  (forall (layout : Type) (id2name : string -> string)
          (mapRange : layout -> string -> num -> bool -> result num)
          (mapDomain mapPaper : layout -> string -> num -> result num)
          (l : layout) (img : Image.t),
     DomainRef.imageToBBox layout id2name mapRange mapDomain mapPaper l img =
     DomainRef.imageToBBox layout id2name
       (fun l' axis val _ => mapRange l' axis val true) mapDomain mapPaper l img) /\
  (forall (log10 log10' : num -> num) (l : Layout) (img : Image.t),
     PixelCalc.imageToBBox log10 l img = PixelCalc.imageToBBox log10' l img) /\
  (forall (log10 : num -> num) (l : Layout) (img : Image.t)
          (axref : refname) (c : coordname) (offset : num),
     getRefType (aro_ref (AImage img) axref) = range ->
     PixelCalc.mapAROCoordToPixel log10 l axref (AImage img) c offset true =
     bind (resolve l (id2name (aro_ref (AImage img) axref)))
          (fun a => Ok (on_number (rangeToPixel a)
                          (add (aro_coord (AImage img) c)
                               (match offset with
                                | Undefined => Num 0
                                | _ => offset
                                end))))).
Proof.
  split; [|split].
  - reflexivity.
  - reflexivity.
  - intros log10 l img axref c offset Hr.
    unfold PixelCalc.mapAROCoordToPixel, DomainRef.mapAROCoordToPixel.
    rewrite Hr. apply mapRangeToPixel_nolog.
Qed.

(** ** The example layout *)

Import GeometryExample.

(** On the log axes [x2] and [y2] the image at [x = 1], [y = 1] is scaled
    as it is: [x = 100 + 1/3 * 300] and not the pixel of [log10(1) = 0]. *)
Example imageToBBox_on_log :
  exists b, PixelCalc.imageToBBox log10 layout image_on_log = Ok b /\
    num_eq (bbox_x b) (Num 200) /\ num_eq (bbox_width b) (Num 100) /\
    num_eq (bbox_y b) (Num 125) /\ num_eq (bbox_height b) (Num 75).
Proof.
  eexists. split; [vm_compute; reflexivity|].
  repeat split; vm_compute; reflexivity.
Qed.

(** A shape on the log axis [x2] does get the log10 of its coordinates:
    [x0 = 10] is drawn at the pixel of [1]. *)
Example shapeToBBox_on_log :
  exists b, PixelCalc.shapeToBBox log10 layout (AShape rect_on_log) = Ok b /\
    num_eq (bbox_x b) (Num 200) /\ num_eq (bbox_width b) (Num 100) /\
    num_eq (bbox_y b) (Num 80) /\ num_eq (bbox_height b) (Num 240).
Proof.
  eexists. split; [vm_compute; reflexivity|].
  repeat split; vm_compute; reflexivity.
Qed.

(** The second scenario: on the domain of [x2], which spans the pixels
    from 100 to 400, [0.2] is the pixel 160 and [0.75] the pixel 325. *)
Example mapDomainToPixel_scenario :
  exists p0 p1,
    mapDomainToPixel layout (id2name "x2 domain") (Num (1 # 5)) = Ok (Num p0) /\
    mapDomainToPixel layout (id2name "x2 domain") (Num (3 # 4)) = Ok (Num p1) /\
    p0 == 160 /\ p1 == 325.
Proof.
  eexists. eexists. split; [vm_compute; reflexivity|].
  split; [vm_compute; reflexivity|]. split; vm_compute; reflexivity.
Qed.

Lemma shapeToBBox_box_witness :
  exists b, PixelCalc.shapeToBBox log10 layout (AShape rect) = Ok b /\
    num_eq (bbox_x b) (Num 160) /\ num_eq (bbox_width b) (Num 30) /\
    num_eq (bbox_y b) (Num 140) /\ num_eq (bbox_height b) (Num 135).
Proof.
  eexists. split.
  - unfold PixelCalc.shapeToBBox.
    eapply (GeometryFacts.shapeToBBox_box Layout id2name (mapRangeToPixel log10)
              mapDomainToPixel mapPaperToPixel layout rect);
      vm_compute; reflexivity.
  - repeat split; vm_compute; reflexivity.
Defined.

Lemma imageToBBox_anchors_witness :
  exists x0 x1 y0 y1 : Q,
    PixelCalc.x_edges log10 layout (image "left" "top") = Ok (Num x0, Num x1) /\
    PixelCalc.y_edges log10 layout (image "left" "top") = Ok (Num y0, Num y1) /\
    x0 == 160 /\ x1 == 250 /\ y0 == 260 /\ y1 == 200.
Proof.
  pose proof (GeometryFacts.imageToBBox_anchors Layout id2name
                (mapRangeToPixel log10) mapDomainToPixel mapPaperToPixel
                layout (image "left" "top")) as H.
  cbv zeta in H.
  destruct H as (Hleft & _ & _ & _ & Htop & _).
  specialize (Hleft eq_refl). specialize (Htop eq_refl).
  eexists. eexists. eexists. eexists.
  split; [unfold PixelCalc.x_edges; rewrite Hleft; vm_compute; reflexivity|].
  split; [unfold PixelCalc.y_edges; rewrite Htop; vm_compute; reflexivity|].
  repeat split; vm_compute; reflexivity.
Defined.

(** C3 read by position puts ['top'] in the place of ['left']: the
    vertical edges of a top-anchored image would be the pixels of [y] and
    of [y + sizey].  For the image at [y = 0.5] with [sizey = 0.2] on the
    domain of [y] these are 200 and 140, while the edges computed are 260
    (the pixel of [y - sizey]) and 200 (the pixel of [y]).  And an image
    whose [yanchor] is no anchor fails on its [xref] first when that names
    an axis the layout does not have. *)
Lemma image_top_edges_counterexample :
  PixelCalc.imageToBBox log10 layout image_off_layout = Throw (UnknownAxis "x9") /\
  Image.yanchor (image "left" "top") = "top" /\
  exists y0 y1 c0 c1 : Q,
    PixelCalc.y_edges log10 layout (image "left" "top") = Ok (Num y0, Num y1) /\
    PixelCalc.mapAROCoordToPixel log10 layout yref (AImage (image "left" "top"))
      cy (Num 0) true = Ok (Num c0) /\
    PixelCalc.mapAROCoordToPixel log10 layout yref (AImage (image "left" "top"))
      cy (Image.sizey (image "left" "top")) true = Ok (Num c1) /\
    y0 == 260 /\ y1 == 200 /\ c0 == 200 /\ c1 == 140 /\
    ~ y0 == c0 /\ ~ y1 == c1.
Proof.
  split; [reflexivity|].
  split; [reflexivity|].
  eexists. eexists. eexists. eexists.
  split; [vm_compute; reflexivity|].
  split; [vm_compute; reflexivity|].
  split; [vm_compute; reflexivity|].
  repeat split; try (vm_compute; reflexivity); vm_compute; discriminate.
Qed.



(** An annotation at [(2, 1)] in the data coordinates of [x] and [y], whose
    arrow is 25 pixels along x and ends at [y = 2] along y: the two arrows
    are in different modes. *)
Lemma annotation_arrow_mode_witness :
  exists e,
    PixelCalc.annotationTest_expected log10 layout
      (Num 2) (Num 1) (Num 25) (Num 2) "x" "y" "pixel" "y" "linear" "linear"
      = Ok e /\
    axpixels e = true /\ aypixels e = false /\
    xpixels e = Num 25 /\
    num_eq (xabspixels e) (Num 160) /\
    num_eq (add (xabspixels e) (xpixels e)) (Num 185) /\
    num_eq (yabspixels e) (Num 275) /\
    num_eq (ypixels e) (Num (-75)).
Proof.
  edestruct (GeometryFacts.annotation_arrow_mode Layout id2name
               (mapRangeToPixel log10) mapDomainToPixel mapPaperToPixel log10
               layout (Num 2) (Num 1) (Num 25) (Num 2)
               "x" "y" "pixel" "y" "linear" "linear")
    as (e & He & Hxa & Hya & _ & Hay & _ & _ & _ & Hyp & Hpx & _).
  - vm_compute. reflexivity.
  - vm_compute. reflexivity.
  - intros _. vm_compute. reflexivity.
  - intros _. vm_compute. reflexivity.
  - destruct (Hpx eq_refl) as (Hax & Hxp & _).
    assert (Hayf : aypixels e = false).
    { destruct (aypixels e); [|reflexivity].
      destruct (proj1 Hay eq_refl) as [H|H]; [discriminate H | now elim H]. }
    exists e. split; [exact He|].
    split; [exact Hax|]. split; [exact Hayf|]. split; [exact Hxp|].
    rewrite Hxp, (Hyp Hayf), Hxa, Hya.
    repeat split; vm_compute; reflexivity.
Defined.

End PixelFacts.

(** * More about [calc]: failures and edge cases *)

Module BarCalcMore.

Import BarCalc BarCalcFacts.

Local Open Scope nat_scope.

Section CalcMore.

Variables gd axis : Type.
Variable getFromId : gd -> string -> option axis.
Variable makeCalcdata : axis -> trace -> string -> bool -> list value.
Variable hasColorscale : trace -> string -> bool.
Variable colorscaleCalc : gd -> trace -> colorscale_opts -> trace.
Variable arraysToCalcdata : list cdrecord -> trace -> list cdrecord.
Variable calcSelection : list cdrecord -> trace -> list cdrecord.
Variable String_ : value -> string.

Local Abbreviation calc_ :=
  (calc gd axis getFromId makeCalcdata hasColorscale colorscaleCalc
        arraysToCalcdata calcSelection String_).
Local Abbreviation size_pos_ := (size_pos gd axis getFromId makeCalcdata).

(** X1.  [calc] returns exactly when both axes of the trace are found.
    Otherwise it fails on the first axis it calls [makeCalcdata] on that is
    missing: the x axis before the y axis for [orientation === 'h'], the y
    axis before the x axis for any other orientation. *)
Theorem calc_fails_on_first_missing_axis (g : gd) (t : trace) :
  let xid := or_default (xaxis t) "x" in
  let yid := or_default (yaxis t) "y" in
  let first := if is_str (orientation t) "h" then xid else yid in
  let second := if is_str (orientation t) "h" then yid else xid in
  (getFromId g first = None -> calc_ g t = Throw (UnknownAxis first)) /\
  (getFromId g first <> None -> getFromId g second = None ->
     calc_ g t = Throw (UnknownAxis second)) /\
  ((exists cd t', calc_ g t = Ok (cd, t')) <->
   getFromId g xid <> None /\ getFromId g yid <> None).
Proof.
  intros xid yid first second. unfold calc, size_pos.
  fold xid yid. subst first second.
  destruct (is_str (orientation t) "h");
    destruct (getFromId g xid) as [xa|], (getFromId g yid) as [ya|]; simpl;
    (split; [intros H; congruence|]);
    (split; [intros H1 H2; congruence|]);
    split.
  all: try (intros (cd & t' & H); discriminate).
  all: try (intros [H1 H2]; congruence).
  all: try (intros _; split; discriminate).
  all: intros _; eexists; eexists; reflexivity.
Qed.

(** X2.  When the [ids] array is shorter than the calculated data, every
    record past its end carries the id [String(undefined)]. *)
Theorem calc_ids_past_the_end (g : gd) (t : trace) (xa ya : axis)
    (l : list value) :
  getFromId g (or_default (xaxis t) "x") = Some xa ->
  getFromId g (or_default (yaxis t) "y") = Some ya ->
  decorates arraysToCalcdata ->
  decorates calcSelection ->
  ids t = Some l ->
  exists cd t',
    calc_ g t = Ok (cd, t') /\
    forall i, List.length l <= i -> i < List.length cd ->
      exists r, nth_error cd i = Some r /\ id r = Some (String_ VUndefined).
Proof.
  intros Hx Hy Ha Hs Hl.
  pose proof (size_pos_resolved gd axis getFromId makeCalcdata g t xa ya Hx Hy)
    as Hsp.
  assert (Hex : exists size_ pos_, size_pos_ g t = Ok (size_, pos_))
    by (destruct (is_str (orientation t) "h"); eauto).
  clear Hsp. destruct Hex as (size_ & pos_ & Hsp).
  destruct (calc_record_at gd axis getFromId makeCalcdata hasColorscale
              colorscaleCalc arraysToCalcdata calcSelection String_
              g t _ _ Hsp Ha Hs) as (cd & t' & Hc & _ & Hrec).
  exists cd, t'. split; [exact Hc|].
  intros i Hli Hi. destruct (Hrec i Hi) as (r & Hr & _ & _ & Hid).
  exists r. split; [exact Hr|]. rewrite Hid. simpl. rewrite Hl.
  unfold at_index. now rewrite nth_overflow.
Qed.

(** X4.  A trace whose position array or size array comes out empty has
    no calculated data at all, whatever the other array holds. *)
Theorem calc_on_empty_array (g : gd) (t : trace) (size_ pos_ : list value) :
  size_pos_ g t = Ok (size_, pos_) ->
  size_ = [] \/ pos_ = [] ->
  decorates arraysToCalcdata ->
  decorates calcSelection ->
  exists t', calc_ g t = Ok ([], t').
Proof.
  intros Hsp Hempty Ha Hs.
  destruct (calc_record_at gd axis getFromId makeCalcdata hasColorscale
              colorscaleCalc arraysToCalcdata calcSelection String_
              g t _ _ Hsp Ha Hs) as (cd & t' & Hc & Hlen & _).
  assert (Hz : List.length cd = 0).
  { rewrite Hlen. destruct Hempty as [-> | ->]; simpl; lia. }
  destruct cd; [|discriminate]. now exists t'.
Qed.

End CalcMore.

(** X3.  The [msUTC] flag is off for exactly five values of [trace.base]:
    [undefined], [null], [false], [NaN] and the empty string.  Every
    number (zero included), every other string and every array turns it
    on. *)
Theorem msUTC_false_iff (t : trace) :
  msUTC t = false <->
  base t = VUndefined \/ base t = VNull \/ base t = VBool false \/
  base t = VNaN \/ base t = VStr "".
Proof.
  rewrite msUTC_spec.
  destruct (base t) as [| |b| |q|str|items]; simpl.
  - split; auto.
  - split; auto.
  - destruct b; simpl; split; auto; try discriminate.
    intros [H|[H|[H|[H|H]]]]; discriminate.
  - split; auto.
  - destruct (Qeq_bool q 0); simpl; split; try discriminate;
      intros [H|[H|[H|[H|H]]]]; discriminate.
  - rewrite orb_false_r. destruct (String.eqb_spec str ""); simpl.
    + subst. split; auto.
    + split; [discriminate|].
      intros [H|[H|[H|[H|H]]]]; try discriminate. congruence.
  - split; [discriminate|]. intros [H|[H|[H|[H|H]]]]; discriminate.
Qed.

Lemma calc_fails_on_first_missing_axis_witness :
  CalcExample.calc ["y"] CalcExample.trace_h = Throw (UnknownAxis "x") /\
  CalcExample.calc ["x"] CalcExample.trace_h = Throw (UnknownAxis "y") /\
  CalcExample.calc ["x"] CalcExample.trace_v = Throw (UnknownAxis "y") /\
  CalcExample.calc [] CalcExample.trace_v = Throw (UnknownAxis "y") /\
  CalcExample.calc [] CalcExample.trace_h = Throw (UnknownAxis "x").
Proof.
  pose proof (fun g t =>
    calc_fails_on_first_missing_axis CalcExample.gd CalcExample.axis
      CalcExample.getFromId CalcExample.makeCalcdata CalcExample.hasColorscale
      CalcExample.colorscaleCalc CalcExample.arraysToCalcdata
      CalcExample.calcSelection CalcExample.String_ g t) as H.
  cbv zeta in H.
  refine (conj _ (conj _ (conj _ (conj _ _)))).
  - apply (proj1 (H ["y"] CalcExample.trace_h)). reflexivity.
  - apply (proj1 (proj2 (H ["x"] CalcExample.trace_h))); [discriminate | reflexivity].
  - apply (proj1 (H ["x"] CalcExample.trace_v)). reflexivity.
  - apply (proj1 (H [] CalcExample.trace_v)). reflexivity.
  - apply (proj1 (H [] CalcExample.trace_h)). reflexivity.
Defined.

Lemma calc_ids_past_the_end_witness :
  exists cd t',
    CalcExample.calc CalcExample.plot CalcExampleMore.trace_short_ids = Ok (cd, t') /\
    forall i, 1 <= i -> i < List.length cd ->
      exists r, nth_error cd i = Some r /\ id r = Some "undefined".
Proof.
  apply (calc_ids_past_the_end CalcExample.gd CalcExample.axis
           CalcExample.getFromId CalcExample.makeCalcdata
           CalcExample.hasColorscale CalcExample.colorscaleCalc
           CalcExample.arraysToCalcdata CalcExample.calcSelection
           CalcExample.String_ CalcExample.plot CalcExampleMore.trace_short_ids
           "x" "y" [VStr "a"]).
  - reflexivity.
  - reflexivity.
  - exact decorates_nothing.
  - exact decorates_nothing.
  - reflexivity.
Defined.

Lemma calc_on_empty_array_witness :
  exists t', CalcExample.calc CalcExample.plot CalcExampleMore.trace_no_y = Ok ([], t').
Proof.
  apply (calc_on_empty_array CalcExample.gd CalcExample.axis
           CalcExample.getFromId CalcExample.makeCalcdata
           CalcExample.hasColorscale CalcExample.colorscaleCalc
           CalcExample.arraysToCalcdata CalcExample.calcSelection
           CalcExample.String_ CalcExample.plot CalcExampleMore.trace_no_y
           [] [VNum 1; VNum 2]).
  - reflexivity.
  - now left.
  - exact decorates_nothing.
  - exact decorates_nothing.
Defined.

End BarCalcMore.

(** * More about components.js *)

Module ComponentsFacts.

Import DomainRef Components.

(** ** [makeAxRef] *)

(** X5.  [makeAxRef] builds a reference exactly for the three kinds
    ['range'], ['domain'] and ['paper']; for any other [ref] it throws
    ['Bad axis type (ref): ' + ref], whatever the axis id. *)
Theorem makeAxRef_Ok_iff (axid ref_ : string) :
  ((exists r, makeAxRef axid ref_ = Ok r) <->
   ref_ = "range" \/ ref_ = "domain" \/ ref_ = "paper") /\
  (ref_ <> "range" -> ref_ <> "domain" -> ref_ <> "paper" ->
   makeAxRef axid ref_ = Throw (Thrown ("Bad axis type (ref): " ++ ref_))).
Proof.
  unfold makeAxRef.
  destruct (String.eqb_spec ref_ "range") as [->|H1].
  { split; [split; eauto | congruence]. }
  destruct (String.eqb_spec ref_ "domain") as [->|H2].
  { split; [split; eauto | congruence]. }
  destruct (String.eqb_spec ref_ "paper") as [->|H3].
  { split; [split; eauto | congruence]. }
  split; [|reflexivity].
  split.
  - intros (r & H). discriminate.
  - intros [H|[H|H]]; congruence.
Qed.

(** ** [annaxscale] *)

(** X6.  [annaxscale(ac, c0, K)] does not look at [K].  Given a finite
    coordinate that is [c0] itself it returns [c0]: an arrow of no length
    stays one.  With an argument that is not a number the result is
    [NaN]. *)
Theorem annaxscale_ignores_K (ac c0 K K' : num) :
  annaxscale ac c0 K = annaxscale ac c0 K' /\
  (forall c : Q, ac = Num c -> c0 = Num c ->
     num_eq (annaxscale ac c0 K) (Num c)) /\
  ((forall a, ac <> Num a) \/ (forall c, c0 <> Num c) ->
     annaxscale ac c0 K = NaN).
Proof.
  split; [reflexivity|]. split.
  - intros c -> ->. simpl. ring.
  - intros [H|H]; destruct ac as [| |a], c0 as [| |c]; try reflexivity;
      solve [elim (H a); reflexivity | elim (H c); reflexivity].
Qed.

(** ** [coordsEq] and [compareBBoxes] *)

Lemma lt_Num (u v : Q) : lt (Num u) (Num v) = true <-> u < v.
Proof.
  simpl. rewrite negb_true_iff. split.
  - intros H. apply Qnot_le_lt. intros Hle.
    apply Qle_bool_iff in Hle. congruence.
  - intros H. destruct (Qle_bool v u) eqn:E; [|reflexivity].
    apply Qle_bool_iff in E. exfalso. exact (Qlt_not_le _ _ H E).
Qed.

Lemma coordsEq_Num (u v : Q) :
  coordsEq (Num u) (Num v) = true <-> Qabs (u - v) < 1 # 100.
Proof. unfold coordsEq, sub, lift2, abs. apply lt_Num. Qed.

Lemma coordsEq_sym (a b : num) : coordsEq a b = coordsEq b a.
Proof.
  destruct a as [| |u], b as [| |v]; try reflexivity.
  unfold coordsEq, sub, lift2, abs. now rewrite Qabs_Qminus.
Qed.

Lemma coordsEq_numbers (a b : num) :
  coordsEq a b = true -> exists u v, a = Num u /\ b = Num v.
Proof.
  destruct a as [| |u], b as [| |v]; try discriminate. eauto.
Qed.

Lemma coordsEq_refl (u v : Q) : u == v -> coordsEq (Num u) (Num v) = true.
Proof.
  intros H. apply coordsEq_Num.
  assert (E : u - v == 0) by (rewrite H; ring).
  rewrite E. reflexivity.
Qed.

(** X7.  [coordsEq] is symmetric; it is false as soon as one of its
    arguments is [undefined] or [NaN], even when both are that same slot;
    and it is true of a finite number and itself. *)
Theorem coordsEq_sym_and_numbers (a b : num) :
  coordsEq a b = coordsEq b a /\
  (coordsEq a b = true -> exists u v, a = Num u /\ b = Num v) /\
  (forall u, a = Num u -> coordsEq a a = true).
Proof.
  split; [apply coordsEq_sym|]. split; [apply coordsEq_numbers|].
  intros u ->. now apply coordsEq_refl.
Qed.

Lemma compareBBoxes_true (a b : bbox) :
  compareBBoxes a b = true <->
  coordsEq (bbox_x a) (bbox_x b) = true /\
  coordsEq (bbox_y a) (bbox_y b) = true /\
  coordsEq (bbox_width a) (bbox_width b) = true /\
  coordsEq (bbox_height a) (bbox_height b) = true.
Proof.
  unfold compareBBoxes. simpl.
  rewrite !andb_true_iff. tauto.
Qed.

Lemma compareBBoxes_sym (a b : bbox) : compareBBoxes a b = compareBBoxes b a.
Proof.
  unfold compareBBoxes. simpl.
  now rewrite (coordsEq_sym (bbox_x a)), (coordsEq_sym (bbox_y a)),
    (coordsEq_sym (bbox_width a)), (coordsEq_sym (bbox_height a)).
Qed.

Lemma compareBBoxes_finite (a b : bbox) :
  compareBBoxes a b = true -> finite_box a.
Proof.
  intros H. apply compareBBoxes_true in H.
  destruct H as (Hx & Hy & Hw & Hh).
  apply coordsEq_numbers in Hx, Hy, Hw, Hh.
  destruct Hx as (x & _ & Ex & _), Hy as (y & _ & Ey & _),
           Hw as (w & _ & Ew & _), Hh as (h & _ & Eh & _).
  exists x, y, w, h. destruct a; simpl in *. congruence.
Qed.

Lemma compareBBoxes_self (b : bbox) : finite_box b -> compareBBoxes b b = true.
Proof.
  intros (x & y & w & h & ->). apply compareBBoxes_true. simpl.
  repeat split; apply coordsEq_refl; reflexivity.
Qed.

(** X8.  [compareBBoxes] does not depend on the order of the two boxes;
    it accepts a box compared with itself exactly when the four fields of
    the box are finite numbers; and whenever it accepts a pair, the four
    fields of either box are finite numbers: a field that is [undefined]
    or [NaN] makes it answer [false]. *)
Theorem compareBBoxes_sym_and_finite (a b : bbox) :
  compareBBoxes a b = compareBBoxes b a /\
  (compareBBoxes a a = true <-> finite_box a) /\
  (compareBBoxes a b = true -> finite_box a /\ finite_box b).
Proof.
  split; [apply compareBBoxes_sym|]. split.
  - split; [apply compareBBoxes_finite | apply compareBBoxes_self].
  - intros H. split; [exact (compareBBoxes_finite a b H)|].
    rewrite compareBBoxes_sym in H. exact (compareBBoxes_finite b a H).
Qed.

(** ** The mapping and the boxes, over any pixel mappings *)

Section Mapping.

Variable layout : Type.
Variable id2name : string -> string.
Variable mapRangeToPixel : layout -> string -> num -> bool -> result num.
Variable mapDomainToPixel : layout -> string -> num -> result num.
Variable mapPaperToPixel : layout -> string -> num -> result num.
Variable log10 : num -> num.

Local Abbreviation map_ :=
  (mapAROCoordToPixel layout id2name mapRangeToPixel mapDomainToPixel
                      mapPaperToPixel).
Local Abbreviation shapeToBBox_ :=
  (shapeToBBox layout id2name mapRangeToPixel mapDomainToPixel mapPaperToPixel).
Local Abbreviation imageToBBox_ :=
  (imageToBBox layout id2name mapRangeToPixel mapDomainToPixel mapPaperToPixel).
Local Abbreviation annotationTest_expected_ :=
  (annotationTest_expected layout id2name mapRangeToPixel mapDomainToPixel
                           mapPaperToPixel).
Local Abbreviation checkAROPosition_ :=
  (checkAROPosition layout id2name mapRangeToPixel mapDomainToPixel
                    mapPaperToPixel).

Lemma map_pixel_ref (l : layout) (axref : refname) (aro : ARO)
    (c : coordname) (offset : num) (nolog : bool) :
  aro_ref aro axref = "pixel" ->
  map_ l axref aro c offset nolog = Ok Undefined.
Proof.
  intros H. unfold mapAROCoordToPixel. now rewrite H.
Qed.

(** X9.  [mapAROCoordToPixel] has no case for a ['pixel'] reference: it
    returns [undefined] without asking any of the pixel mappings.  So a
    shape whose [xref] is ['pixel'] does not make [shapeToBBox] throw: its
    box has [x] undefined and a [NaN] width, beside the [y] and height
    that [yref] gives. *)
Theorem shapeToBBox_on_pixel_ref (l : layout) (sh : Shape.t) (py0 py1 : num) :
  Shape.xref sh = "pixel" ->
  map_ l yref (AShape sh) cy1 Undefined false = Ok py1 ->
  map_ l yref (AShape sh) cy0 Undefined false = Ok py0 ->
  shapeToBBox_ l (AShape sh) =
  Ok {| bbox_x := Undefined;
        bbox_width := NaN;
        bbox_y := py1;
        bbox_height := sub py0 py1 |}.
Proof.
  intros Hx Hy1 Hy0. unfold shapeToBBox.
  rewrite !(map_pixel_ref l xref (AShape sh)) by exact Hx.
  cbn [bind]. rewrite Hy1. cbn [bind]. rewrite Hy0. reflexivity.
Qed.

Lemma map_off_range
    (mapRange' : layout -> string -> num -> bool -> result num)
    (l : layout) (axref : refname) (aro : ARO)
    (c : coordname) (offset : num) (nolog nolog' : bool) :
  getRefType (aro_ref aro axref) <> range ->
  map_ l axref aro c offset nolog =
  mapAROCoordToPixel layout id2name mapRange' mapDomainToPixel mapPaperToPixel
    l axref aro c offset nolog'.
Proof.
  intros H. unfold mapAROCoordToPixel.
  destruct (getRefType (aro_ref aro axref)); try reflexivity.
  now elim H.
Qed.

(** X10.  The box of a shape or of an image whose two references are not
    range references (they name a domain, the paper or pixels) is computed
    without the range mapping: it is the same whatever that mapping
    answers, and so whatever the ranges of the axes are. *)
Theorem boxes_off_range
    (mapRange' : layout -> string -> num -> bool -> result num)
    (l : layout) (sh : Shape.t) (img : Image.t) :
  (getRefType (Shape.xref sh) <> range ->
   getRefType (Shape.yref sh) <> range ->
   shapeToBBox_ l (AShape sh) =
   shapeToBBox layout id2name mapRange' mapDomainToPixel mapPaperToPixel
     l (AShape sh)) /\
  (getRefType (Image.xref img) <> range ->
   getRefType (Image.yref img) <> range ->
   imageToBBox_ l img =
   imageToBBox layout id2name mapRange' mapDomainToPixel mapPaperToPixel l img).
Proof.
  split; intros Hx Hy.
  - unfold shapeToBBox.
    rewrite !(map_off_range mapRange' l xref (AShape sh) _ _ false false)
      by exact Hx.
    rewrite !(map_off_range mapRange' l yref (AShape sh) _ _ false false)
      by exact Hy.
    reflexivity.
  - unfold imageToBBox, x_edges, y_edges.
    rewrite !(map_off_range mapRange' l xref (AImage img) _ _ true true)
      by exact Hx.
    rewrite !(map_off_range mapRange' l yref (AImage img) _ _ true true)
      by exact Hy.
    reflexivity.
Qed.

(** X11.  Exchanging [x0] and [x1] of a shape mirrors its box along x:
    the new box starts at the pixel of the old [x1], each of the two
    widths is the start of the other box minus the start of its own, and
    [y] and the height stay as they are. *)
Theorem shapeToBBox_swap_x (l : layout) (sh : Shape.t) (b : bbox) :
  shapeToBBox_ l (AShape sh) = Ok b ->
  exists b',
    shapeToBBox_ l (AShape (swap_x sh)) = Ok b' /\
    map_ l xref (AShape sh) cx1 Undefined false = Ok (bbox_x b') /\
    bbox_width b = sub (bbox_x b') (bbox_x b) /\
    bbox_width b' = sub (bbox_x b) (bbox_x b') /\
    bbox_y b' = bbox_y b /\ bbox_height b' = bbox_height b.
Proof.
  intros Hb.
  destruct (GeometryFacts.shapeToBBox_Ok layout id2name mapRangeToPixel
              mapDomainToPixel mapPaperToPixel l (AShape sh) b Hb)
    as (px0 & px1 & py0 & py1 & H0 & H1 & Hy1 & Hy0).
  unfold shapeToBBox in Hb. rewrite H0, H1, Hy1, Hy0 in Hb.
  cbn [bind] in Hb. injection Hb as <-.
  unfold shapeToBBox.
  rewrite (GeometryFacts.map_ext layout id2name mapRangeToPixel mapDomainToPixel
             mapPaperToPixel l xref (AShape (swap_x sh)) (AShape sh) cx0 cx1)
    by reflexivity.
  rewrite H1. cbn [bind].
  rewrite (GeometryFacts.map_ext layout id2name mapRangeToPixel mapDomainToPixel
             mapPaperToPixel l xref (AShape (swap_x sh)) (AShape sh) cx1 cx0)
    by reflexivity.
  rewrite H0. cbn [bind].
  rewrite (GeometryFacts.map_ext layout id2name mapRangeToPixel mapDomainToPixel
             mapPaperToPixel l yref (AShape (swap_x sh)) (AShape sh) cy1 cy1)
    by reflexivity.
  rewrite Hy1. cbn [bind].
  rewrite (GeometryFacts.map_ext layout id2name mapRangeToPixel mapDomainToPixel
             mapPaperToPixel l yref (AShape (swap_x sh)) (AShape sh) cy0 cy0)
    by reflexivity.
  rewrite Hy0. cbn [bind].
  eexists. split; [reflexivity|]. simpl. repeat split; reflexivity.
Qed.

(** X12.  For a shape with [x0 = x1] (a vertical line) the width of the
    box is its [x] minus itself, which is 0 when [x] is a finite number;
    for a shape with [y0 = y1] the same holds of the height and [y]. *)
Theorem shapeToBBox_degenerate (l : layout) (sh : Shape.t) (b : bbox) :
  shapeToBBox_ l (AShape sh) = Ok b ->
  (Shape.x0 sh = Shape.x1 sh ->
     bbox_width b = sub (bbox_x b) (bbox_x b) /\
     forall x, bbox_x b = Num x -> num_eq (bbox_width b) (Num 0)) /\
  (Shape.y0 sh = Shape.y1 sh ->
     bbox_height b = sub (bbox_y b) (bbox_y b) /\
     forall y, bbox_y b = Num y -> num_eq (bbox_height b) (Num 0)).
Proof.
  intros Hb.
  destruct (GeometryFacts.shapeToBBox_Ok layout id2name mapRangeToPixel
              mapDomainToPixel mapPaperToPixel l (AShape sh) b Hb)
    as (px0 & px1 & py0 & py1 & H0 & H1 & Hy1 & Hy0).
  unfold shapeToBBox in Hb. rewrite H0, H1, Hy1, Hy0 in Hb.
  cbn [bind] in Hb. injection Hb as <-. simpl. split.
  - intros E.
    rewrite (GeometryFacts.map_ext layout id2name mapRangeToPixel
               mapDomainToPixel mapPaperToPixel l xref (AShape sh) (AShape sh)
               cx1 cx0) in H1 by (simpl; auto).
    rewrite H0 in H1. injection H1 as <-.
    split; [reflexivity|]. intros x ->. simpl. ring.
  - intros E.
    rewrite (GeometryFacts.map_ext layout id2name mapRangeToPixel
               mapDomainToPixel mapPaperToPixel l yref (AShape sh) (AShape sh)
               cy0 cy1) in Hy0 by (simpl; auto).
    rewrite Hy1 in Hy0. injection Hy0 as <-.
    split; [reflexivity|]. intros y ->. simpl. ring.
Qed.

(** X13.  What the anchors of an image mean for its box, [px] and [py]
    being the pixels of the stored [x] and [y]: with ['left'] the box
    starts at [px], and with ['right'] it ends there, its width being [px]
    minus its start; with ['top'] the box starts at [py], and with
    ['bottom'] it ends there, its height being [py] minus its start. *)
Theorem imageToBBox_anchor_edges (l : layout) (img : Image.t)
    (b : bbox) (px py : num) :
  imageToBBox_ l img = Ok b ->
  map_ l xref (AImage img) cx (Num 0) true = Ok px ->
  map_ l yref (AImage img) cy (Num 0) true = Ok py ->
  (Image.xanchor img = "left" -> bbox_x b = px) /\
  (Image.xanchor img = "right" -> bbox_width b = sub px (bbox_x b)) /\
  (Image.yanchor img = "top" -> bbox_y b = py) /\
  (Image.yanchor img = "bottom" -> bbox_height b = sub py (bbox_y b)).
Proof.
  intros Hb Hpx Hpy. unfold imageToBBox in Hb.
  destruct (x_edges layout id2name mapRangeToPixel mapDomainToPixel
              mapPaperToPixel l img) as [[x0 x1]|] eqn:Hxe; [|discriminate].
  cbn [bind] in Hb.
  destruct (y_edges layout id2name mapRangeToPixel mapDomainToPixel
              mapPaperToPixel l img) as [[y0 y1]|] eqn:Hye; [|discriminate].
  cbn [bind] in Hb. injection Hb as <-. simpl.
  unfold x_edges in Hxe. unfold y_edges in Hye.
  change (map_ l xref (AImage img) cx Undefined true)
    with (map_ l xref (AImage img) cx (Num 0) true) in Hxe.
  change (map_ l yref (AImage img) cy Undefined true)
    with (map_ l yref (AImage img) cy (Num 0) true) in Hye.
  rewrite Hpx in Hxe. rewrite Hpy in Hye.
  refine (conj _ (conj _ (conj _ _))); intros Ha.
  - rewrite Ha in Hxe. simpl in Hxe.
    destruct (map_ l xref (AImage img) cx (Image.sizex img) true);
      [|discriminate].
    cbn [bind] in Hxe. congruence.
  - rewrite Ha in Hxe. simpl in Hxe.
    destruct (map_ l xref (AImage img) cx (neg (Image.sizex img)) true);
      [|discriminate].
    cbn [bind] in Hxe. congruence.
  - rewrite Ha in Hye. simpl in Hye.
    destruct (map_ l yref (AImage img) cy (neg (Image.sizey img)) true);
      [|discriminate].
    cbn [bind] in Hye. congruence.
  - rewrite Ha in Hye. simpl in Hye.
    destruct (map_ l yref (AImage img) cy (Image.sizey img) true);
      [|discriminate].
    cbn [bind] in Hye. congruence.
Qed.

(** X14.  [annotationTest] takes [Math.log10] of a coordinate only when
    its reference is a range reference and the axis type is ['log']: when,
    for x and for y, the axis is not a log axis or neither the position
    nor the arrow is given by a range reference, what the test expects does
    not depend on [Math.log10]. *)
Theorem annotationTest_without_log10 (log10' : num -> num) (l : layout)
    (x0 y0 ax ay : num)
    (xref_ yref_ axref ayref xaxistype yaxistype : string) :
  xaxistype <> "log" \/
    (getRefType xref_ <> range /\ getRefType axref <> range) ->
  yaxistype <> "log" \/
    (getRefType yref_ <> range /\ getRefType ayref <> range) ->
  annotationTest_expected_ log10 l x0 y0 ax ay xref_ yref_ axref ayref
    xaxistype yaxistype =
  annotationTest_expected_ log10' l x0 y0 ax ay xref_ yref_ axref ayref
    xaxistype yaxistype.
Proof.
  intros Hx Hy.
  assert (Hoff : forall (r t : string) (v : num) (f : num -> num),
            t <> "log" \/ getRefType r <> range ->
            (if reftype_eqb (getRefType r) range && (t =? "log")
             then f v else v) = v).
  { intros r t v f [H|H].
    - apply String.eqb_neq in H. rewrite H. now rewrite andb_false_r.
    - destruct (getRefType r); try reflexivity. now elim H. }
  unfold annotationTest_expected.
  rewrite !(Hoff xref_ xaxistype) by tauto.
  rewrite !(Hoff axref xaxistype) by tauto.
  rewrite !(Hoff yref_ yaxistype) by tauto.
  rewrite !(Hoff ayref yaxistype) by tauto.
  reflexivity.
Qed.

(** The two mode flags of what [annotationTest] expects. *)
Lemma annotationTest_expected_modes (l : layout) (x0 y0 ax ay : num)
    (xref_ yref_ axref ayref xaxistype yaxistype : string)
    (e : annotation_expectation) :
  annotationTest_expected_ log10 l x0 y0 ax ay xref_ yref_ axref ayref
    xaxistype yaxistype = Ok e ->
  axpixels e =
    reftype_eqb (getRefType axref) pixel
    || negb (reftype_eqb (getRefType axref) (getRefType xref_)) /\
  aypixels e =
    reftype_eqb (getRefType ayref) pixel
    || negb (reftype_eqb (getRefType ayref) (getRefType yref_)).
Proof.
  unfold annotationTest_expected.
  set (bx := reftype_eqb (getRefType axref) pixel
             || negb (reftype_eqb (getRefType axref) (getRefType xref_))).
  set (by_ := reftype_eqb (getRefType ayref) pixel
              || negb (reftype_eqb (getRefType ayref) (getRefType yref_))).
  intros H.
  repeat match type of H with
         | bind ?m _ = Ok _ =>
             let E := fresh "E" in
             destruct m eqn:E; [cbn [bind] in H | discriminate H]
         end.
  injection H as <-. simpl. destruct bx, by_; split; reflexivity.
Qed.

(** X21.  [checkAROPosition] accepts a page that shows exactly the
    predicted box, as long as that box is made of finite numbers; it
    answers [false], without failing, when the box read off the page has a
    field that is [undefined] or [NaN]; and when [shapeToBBox] fails it
    fails with the same error instead of answering. *)
Theorem checkAROPosition_verdicts (l : layout) (aro : ARO) (page : bbox) :
  (forall b, shapeToBBox_ l aro = Ok b -> finite_box b ->
     checkAROPosition_ l aro b = Ok true) /\
  (forall b, shapeToBBox_ l aro = Ok b -> ~ finite_box page ->
     checkAROPosition_ l aro page = Ok false) /\
  (forall e, shapeToBBox_ l aro = Throw e ->
     checkAROPosition_ l aro page = Throw e).
Proof.
  refine (conj _ (conj _ _)).
  - intros b Hb Hn. unfold checkAROPosition. rewrite Hb. cbn [bind].
    now rewrite compareBBoxes_self.
  - intros b Hb Hn. unfold checkAROPosition. rewrite Hb. cbn [bind].
    rewrite (compareBBoxes_sym b page).
    destruct (compareBBoxes page b) eqn:E; [|reflexivity].
    elim Hn. exact (compareBBoxes_finite page b E).
  - intros e He. unfold checkAROPosition. now rewrite He.
Qed.

Lemma makeAxRef_not_pixel (a r : string) :
  is_axis_id a = true -> valid_ref r ->
  exists x, makeAxRef a r = Ok x /\
            getRefType x <> pixel /\ (x =? "pixel")%string = false.
Proof.
  intros Ha [-> | [-> | ->]]; eexists; (split; [reflexivity|]).
  - rewrite (RefFacts.getRefType_axis_id a Ha). split; [discriminate|].
    destruct (RefFacts.axis_id_first a Ha) as (rest & [-> | ->]); reflexivity.
  - rewrite RefFacts.getRefType_app_domain. split; [discriminate|].
    apply RefFacts.eqb_length_neq. rewrite RefFacts.length_app. simpl. lia.
  - split; [discriminate | reflexivity].
Qed.

(** X20.  The labels of [arrowAxis] mean what the comment on them says.
    For a combination whose axes are axis ids and whose positions refer to
    a range, a domain or the paper, [testAnnotationCombo] always gets its
    references built; with the label ['p'] it hands [annotationTest] the
    [pixel] entry of the position as arrow and the test takes the arrow in
    pixels, with ['s'] it hands over the second [value] and the test takes
    the arrow as a coordinate; x and y each follow their own label. *)
Theorem testAnnotationCombo_modes (l : layout) (combo : annotation_combo) :
  is_axis_id (fst (axispair combo)) = true ->
  is_axis_id (snd (axispair combo)) = true ->
  valid_ref (pos_ref (aroposx combo)) ->
  valid_ref (pos_ref (aroposy combo)) ->
  exists a,
    testAnnotationCombo_args combo = Ok a /\
    arg_ax a = (if fst (arrowaxispair combo) =? "p"
                then pos_pixel (aroposx combo)
                else Components.at_index (pos_value (aroposx combo)) 1) /\
    arg_ay a = (if snd (arrowaxispair combo) =? "p"
                then pos_pixel (aroposy combo)
                else Components.at_index (pos_value (aroposy combo)) 1) /\
    forall e,
      testAnnotationCombo_expected layout id2name mapRangeToPixel
        mapDomainToPixel mapPaperToPixel log10 l combo = Ok e ->
      axpixels e = (fst (arrowaxispair combo) =? "p") /\
      aypixels e = (snd (arrowaxispair combo) =? "p").
Proof.
  intros Hxid Hyid Hxr Hyr.
  destruct (makeAxRef_not_pixel _ _ Hxid Hxr) as (xr & Ex & Kx & Px).
  destruct (makeAxRef_not_pixel _ _ Hyid Hyr) as (yr & Ey & Ky & Py).
  unfold testAnnotationCombo_expected, testAnnotationCombo_args.
  rewrite Ex, Ey. cbn [bind].
  eexists. split; [reflexivity|]. cbn [arg_ax arg_ay].
  assert (Hmode : forall (lbl xr : string),
            getRefType xr <> pixel -> (xr =? "pixel")%string = false ->
            let axr := if (lbl =? "p")%string then "pixel" else xr in
            (axr =? "pixel")%string = (lbl =? "p")%string /\
            reftype_eqb (getRefType axr) pixel
            || negb (reftype_eqb (getRefType axr) (getRefType xr))
            = (lbl =? "p")%string).
  { intros lbl r K P. destruct (lbl =? "p")%string; simpl.
    - split; reflexivity.
    - split; [exact P|]. destruct (getRefType r); try reflexivity. now elim K. }
  destruct (Hmode (fst (arrowaxispair combo)) xr Kx Px) as [Ax Mx].
  destruct (Hmode (snd (arrowaxispair combo)) yr Ky Py) as [Ay My].
  cbv zeta in Ax, Ay, Mx, My.
  rewrite Ax, Ay. split; [reflexivity|]. split; [reflexivity|].
  intros e He. cbn in He.
  apply annotationTest_expected_modes in He. destruct He as [-> ->].
  now rewrite Mx, My.
Qed.

End Mapping.

(** ** Objects and layouts *)

Lemma get_set_same (obj : object) (key : string) (v : prop) :
  get (set obj key v) key = Some v.
Proof.
  induction obj as [|[k w] rest IH]; simpl.
  - now rewrite String.eqb_refl.
  - destruct (k =? key)%string eqn:E; simpl; rewrite E; auto.
Qed.

Lemma get_set_other (obj : object) (key key' : string) (v : prop) :
  key <> key' -> get (set obj key v) key' = get obj key'.
Proof.
  intros Hne. induction obj as [|[k w] rest IH]; simpl.
  - apply String.eqb_neq in Hne. now rewrite Hne.
  - destruct (k =? key)%string eqn:E; simpl.
    + apply String.eqb_eq in E. subst k.
      apply String.eqb_neq in Hne. now rewrite Hne.
    + destruct (k =? key')%string; auto.
Qed.

Lemma get_set_axis_same (l : layoutobj) (axname : string) (a : axisobj) :
  get_axis (set_axis l axname a) axname = Some a.
Proof.
  induction l as [|[k w] rest IH]; simpl.
  - now rewrite String.eqb_refl.
  - destruct (k =? axname)%string eqn:E; simpl; rewrite E; auto.
Qed.

Lemma get_set_axis_other (l : layoutobj) (axname k' : string) (a : axisobj) :
  axname <> k' -> get_axis (set_axis l axname a) k' = get_axis l k'.
Proof.
  intros Hne. induction l as [|[k w] rest IH]; simpl.
  - apply String.eqb_neq in Hne. now rewrite Hne.
  - destruct (k =? axname)%string eqn:E; simpl.
    + apply String.eqb_eq in E. subst k.
      apply String.eqb_neq in Hne. now rewrite Hne.
    + destruct (k =? k')%string; auto.
Qed.

Lemma set_axis_twice (l : layoutobj) (axname : string) (a b : axisobj) :
  set_axis (set_axis l axname a) axname b = set_axis l axname b.
Proof.
  induction l as [|[k w] rest IH]; simpl.
  - now rewrite String.eqb_refl.
  - destruct (k =? axname)%string eqn:E; simpl; rewrite E; [reflexivity|].
    now rewrite IH.
Qed.

Lemma append_inj (a b c : string) : a ++ b = a ++ c -> b = c.
Proof.
  induction a as [|ch a IH]; simpl; intros H; [exact H|].
  injection H as H. auto.
Qed.

Lemma append_char_inj (a b : string) (ch : ascii) :
  a ++ String ch "" = b ++ String ch "" -> a = b.
Proof.
  revert b. induction a as [|c a IH]; intros [|d b] H; simpl in H.
  - reflexivity.
  - injection H as _ H. destruct b; discriminate.
  - injection H as _ H. destruct a; discriminate.
  - injection H as -> H. f_equal. auto.
Qed.

Lemma zero_key_not_axref (c : string) : c ++ "0" <> "axref".
Proof.
  intros H.
  do 5 (destruct c as [|? c]; simpl in H; [discriminate|]; injection H as _ H).
  destruct c; discriminate.
Qed.

Section LayoutFacts.

Variable id2name : string -> string.
Variable log10 : num -> num.

Local Abbreviation logAxisIfAxType_ := (logAxisIfAxType id2name log10).

(** X15.  For an axis type of ['log'] and an axis of [layoutIn] that has a
    range, [logAxisIfAxType] puts into [layoutOut], under the name of the
    axis, a copy of that axis with type ['log'] and with [Math.log10] of
    each end of its range, its other properties kept; every other axis of
    [layoutOut] is left as it was. *)
Theorem logAxisIfAxType_log (layoutIn layoutOut : layoutobj) (axid : string)
    (a : axisobj) (rng : list num) :
  get_axis layoutIn (id2name axid) = Some a ->
  ao_range a = Some rng ->
  exists out,
    logAxisIfAxType_ layoutIn layoutOut axid "log" = Some out /\
    get_axis out (id2name axid) =
      Some {| ao_type := Some "log";
              ao_range := Some (map log10 rng);
              ao_other := ao_other a |} /\
    (forall k, k <> id2name axid -> get_axis out k = get_axis layoutOut k).
Proof.
  intros Ha Hr. unfold logAxisIfAxType. simpl. rewrite Ha. simpl. rewrite Hr.
  eexists. split; [reflexivity|]. split.
  - apply get_set_axis_same.
  - intros k Hk. apply get_set_axis_other. congruence.
Qed.

(** X16.  [logAxisIfAxType] does nothing at all for an axis type other
    than ['log'], not even look the axis up; for ['log'] it fails (the
    TypeError of [axis.range.map]) exactly when [layoutIn] has no such axis
    or the axis has no range. *)
Theorem logAxisIfAxType_fails_iff (layoutIn layoutOut : layoutobj)
    (axid axtype : string) :
  (axtype <> "log" ->
     logAxisIfAxType_ layoutIn layoutOut axid axtype = Some layoutOut) /\
  (logAxisIfAxType_ layoutIn layoutOut axid axtype = None <->
     axtype = "log" /\
     forall a, get_axis layoutIn (id2name axid) = Some a -> ao_range a = None).
Proof.
  unfold logAxisIfAxType.
  destruct (String.eqb_spec axtype "log") as [->|Hne].
  - split; [congruence|].
    destruct (get_axis layoutIn (id2name axid)) as [a|]; simpl.
    + destruct (ao_range a) as [rng|] eqn:Hr; split.
      * discriminate.
      * intros [_ H]. specialize (H a eq_refl). congruence.
      * intros _. split; [reflexivity|]. intros a' E. congruence.
      * reflexivity.
    + split; [|reflexivity]. intros _. split; [reflexivity|]. discriminate.
  - split; [reflexivity|]. split; [discriminate|]. intros [H _]. contradiction.
Qed.

(** X17.  [logAxisIfAxType] reads [layoutIn] and writes [layoutOut]:
    calling it again on its own result changes nothing (the logarithm is
    not taken twice), and what it writes for an axis does not depend on
    what [layoutOut] held for that axis before. *)
Theorem logAxisIfAxType_again (layoutIn layoutOut : layoutobj)
    (axid axtype : string) (out : layoutobj) :
  logAxisIfAxType_ layoutIn layoutOut axid axtype = Some out ->
  logAxisIfAxType_ layoutIn out axid axtype = Some out /\
  (forall b,
     logAxisIfAxType_ layoutIn (set_axis layoutOut (id2name axid) b) axid "log"
     = logAxisIfAxType_ layoutIn layoutOut axid "log").
Proof.
  unfold logAxisIfAxType. intros H. split.
  - destruct (axtype =? "log")%string; [|reflexivity].
    destruct (ao_range (spread (get_axis layoutIn (id2name axid)))) as [rng|];
      [|discriminate].
    injection H as <-. now rewrite set_axis_twice.
  - intros b. simpl.
    destruct (ao_range (spread (get_axis layoutIn (id2name axid)))) as [rng|];
      [|reflexivity].
    now rewrite set_axis_twice.
Qed.

End LayoutFacts.

(** X18.  [aroFromAROPos] writes the two values of the position to
    [axletter + '0'] and [axletter + '1'] and, for a position on a range,
    a domain or the paper, the same reference to [axletter + 'ref'] that
    [makeAxRef] builds for the axis [axletter + axnum].  For any other kind
    of position [makeAxRef] throws, while [aroFromAROPos] leaves the
    reference of the object as it was.  No other property is touched. *)
Theorem aroFromAROPos_sets (aro : object) (axletter axnum : string)
    (pos : aropos) :
  let aro' := aroFromAROPos aro axletter axnum pos in
  get aro' (axletter ++ "0") = Some (PNum (Components.at_index (pos_value pos) 0)) /\
  get aro' (axletter ++ "1") = Some (PNum (Components.at_index (pos_value pos) 1)) /\
  (valid_ref (pos_ref pos) ->
     exists r, makeAxRef (axletter ++ axnum) (pos_ref pos) = Ok r /\
               get aro' (axletter ++ "ref") = Some (PStr r)) /\
  (~ valid_ref (pos_ref pos) ->
     (exists e, makeAxRef (axletter ++ axnum) (pos_ref pos) = Throw e) /\
     get aro' (axletter ++ "ref") = get aro (axletter ++ "ref")) /\
  (forall k, k <> axletter ++ "0" -> k <> axletter ++ "1" ->
             k <> axletter ++ "ref" -> get aro' k = get aro k).
Proof.
  intros aro'.
  assert (H01 : axletter ++ "0" <> axletter ++ "1")
    by (intros H; apply append_inj in H; discriminate).
  assert (H0r : axletter ++ "0" <> axletter ++ "ref")
    by (intros H; apply append_inj in H; discriminate).
  assert (H1r : axletter ++ "1" <> axletter ++ "ref")
    by (intros H; apply append_inj in H; discriminate).
  set (a1 := set aro (axletter ++ "0")
               (PNum (Components.at_index (pos_value pos) 0))).
  set (a2 := set a1 (axletter ++ "1")
               (PNum (Components.at_index (pos_value pos) 1))).
  assert (Hshape : (valid_ref (pos_ref pos) /\
                    exists r, makeAxRef (axletter ++ axnum) (pos_ref pos) = Ok r /\
                              aro' = set a2 (axletter ++ "ref") (PStr r)) \/
                   (~ valid_ref (pos_ref pos) /\
                    (exists e, makeAxRef (axletter ++ axnum) (pos_ref pos) = Throw e) /\
                    aro' = a2)).
  { subst aro'. unfold aroFromAROPos, makeAxRef, valid_ref. fold a1. fold a2.
    destruct (String.eqb_spec (pos_ref pos) "range") as [E|N1].
    { left. split; [auto|]. eexists. split; reflexivity. }
    destruct (String.eqb_spec (pos_ref pos) "domain") as [E|N2].
    { left. split; [auto|]. eexists. split; reflexivity. }
    destruct (String.eqb_spec (pos_ref pos) "paper") as [E|N3].
    { left. split; [auto|]. eexists. split; reflexivity. }
    right. split; [tauto|]. split; [eexists; reflexivity | reflexivity]. }
  assert (G0 : get a2 (axletter ++ "0") =
               Some (PNum (Components.at_index (pos_value pos) 0))).
  { subst a2. rewrite get_set_other by congruence. apply get_set_same. }
  assert (G1 : get a2 (axletter ++ "1") =
               Some (PNum (Components.at_index (pos_value pos) 1))).
  { subst a2. apply get_set_same. }
  assert (Gr : get a2 (axletter ++ "ref") = get aro (axletter ++ "ref")).
  { subst a2 a1. now rewrite !get_set_other by congruence. }
  assert (Gk : forall k, k <> axletter ++ "0" -> k <> axletter ++ "1" ->
                 get a2 k = get aro k).
  { intros k K0 K1. subst a2 a1. now rewrite !get_set_other by congruence. }
  destruct Hshape as [(Hv & r & Er & ->) | (Hn & He & ->)].
  - refine (conj _ (conj _ (conj _ (conj _ _)))).
    + rewrite get_set_other by congruence. exact G0.
    + rewrite get_set_other by congruence. exact G1.
    + intros _. exists r. split; [exact Er | apply get_set_same].
    + intros Hn. contradiction.
    + intros k K0 K1 Kr. rewrite get_set_other by congruence. now apply Gk.
  - refine (conj G0 (conj G1 (conj _ (conj _ _)))).
    + intros Hv. contradiction.
    + intros _. split; [exact He | exact Gr].
    + intros k K0 K1 _. now apply Gk.
Qed.

(** X19.  [aroSetCommonParams] keeps the reference under the one name
    [axref], whatever the letter of the coordinate: after a call for one
    letter and a call for another the object holds both coordinates but
    only the reference of the second call. *)
Theorem aroSetCommonParams_twice (aro : object) (c1 c2 r1 r2 : string)
    (v1 v2 : num) :
  c1 <> c2 ->
  let aro' := aroSetCommonParams (aroSetCommonParams aro c1 r1 v1) c2 r2 v2 in
  get aro' (c1 ++ "0") = Some (PNum v1) /\
  get aro' (c2 ++ "0") = Some (PNum v2) /\
  get aro' "axref" = Some (PStr r2).
Proof.
  intros Hne aro'. subst aro'. unfold aroSetCommonParams.
  assert (H12 : c2 ++ "0" <> c1 ++ "0").
  { intros H. apply append_char_inj in H. congruence. }
  pose proof (zero_key_not_axref c1) as K1.
  pose proof (zero_key_not_axref c2) as K2.
  refine (conj _ (conj _ _)).
  - rewrite get_set_other by congruence.
    rewrite get_set_other by congruence.
    rewrite get_set_other by congruence.
    apply get_set_same.
  - rewrite get_set_other by congruence. apply get_set_same.
  - apply get_set_same.
Qed.

End ComponentsFacts.

(** * The properties of components.js on the examples *)

Module ComponentsWitness.

Import DomainRef Components PixelCalc GeometryExample ComponentsExample.

Lemma shapeToBBox_on_pixel_ref_witness :
  exists y h,
    PixelCalc.shapeToBBox log10 layout (AShape rect_on_pixels) =
    Ok {| bbox_x := Undefined; bbox_width := NaN;
          bbox_y := y; bbox_height := h |}.
Proof.
  eexists. eexists. unfold PixelCalc.shapeToBBox.
  eapply (ComponentsFacts.shapeToBBox_on_pixel_ref Layout PixelCalc.id2name
            (mapRangeToPixel log10) mapDomainToPixel mapPaperToPixel
            layout rect_on_pixels).
  - reflexivity.
  - vm_compute. reflexivity.
  - vm_compute. reflexivity.
Defined.

Lemma boxes_off_range_witness :
  PixelCalc.imageToBBox log10 layout (image "left" "top") =
  DomainRef.imageToBBox Layout PixelCalc.id2name
    (fun _ _ _ _ => Throw (Thrown "no range mapping"))
    mapDomainToPixel mapPaperToPixel layout (image "left" "top").
Proof.
  apply (proj2 (ComponentsFacts.boxes_off_range Layout PixelCalc.id2name
                  (mapRangeToPixel log10) mapDomainToPixel mapPaperToPixel
                  (fun _ _ _ _ => Throw (Thrown "no range mapping"))
                  layout rect (image "left" "top"))).
  - vm_compute. discriminate.
  - vm_compute. discriminate.
Defined.

Lemma shapeToBBox_swap_x_witness :
  exists b b',
    PixelCalc.shapeToBBox log10 layout (AShape rect) = Ok b /\
    PixelCalc.shapeToBBox log10 layout (AShape (swap_x rect)) = Ok b' /\
    PixelCalc.mapAROCoordToPixel log10 layout xref (AShape rect) cx1
      Undefined false = Ok (bbox_x b') /\
    bbox_width b = sub (bbox_x b') (bbox_x b) /\
    bbox_width b' = sub (bbox_x b) (bbox_x b').
Proof.
  assert (Hb : DomainRef.shapeToBBox Layout PixelCalc.id2name
                 (mapRangeToPixel log10) mapDomainToPixel mapPaperToPixel
                 layout (AShape rect) =
               Ok {| bbox_x := Num (1600 # 10); bbox_y := Num (1400 # 10);
                     bbox_width := Num (3000 # 100);
                     bbox_height := Num (5400 # 40) |})
    by (vm_compute; reflexivity).
  destruct (ComponentsFacts.shapeToBBox_swap_x Layout PixelCalc.id2name
              (mapRangeToPixel log10) mapDomainToPixel mapPaperToPixel
              layout rect _ Hb) as (b' & Hb' & Hx & Hw & Hw' & _).
  eexists. exists b'.
  exact (conj Hb (conj Hb' (conj Hx (conj Hw Hw')))).
Defined.

Lemma shapeToBBox_degenerate_witness :
  exists b,
    PixelCalc.shapeToBBox log10 layout (AShape vline) = Ok b /\
    num_eq (bbox_width b) (Num 0).
Proof.
  exists {| bbox_x := Num (1600 # 10); bbox_y := Num (1400 # 10);
            bbox_width := Num (0 # 100); bbox_height := Num (5400 # 40) |}.
  split; [vm_compute; reflexivity|].
  refine (proj2 (proj1 (ComponentsFacts.shapeToBBox_degenerate Layout
            PixelCalc.id2name
            (mapRangeToPixel log10) mapDomainToPixel mapPaperToPixel
            layout vline
            {| bbox_x := Num (1600 # 10); bbox_y := Num (1400 # 10);
               bbox_width := Num (0 # 100); bbox_height := Num (5400 # 40) |}
            _) eq_refl) (1600 # 10) eq_refl).
  vm_compute. reflexivity.
Defined.

Lemma imageToBBox_anchor_edges_witness :
  exists b px py,
    PixelCalc.imageToBBox log10 layout (image "right" "bottom") = Ok b /\
    PixelCalc.mapAROCoordToPixel log10 layout xref
      (AImage (image "right" "bottom")) cx (Num 0) true = Ok px /\
    PixelCalc.mapAROCoordToPixel log10 layout yref
      (AImage (image "right" "bottom")) cy (Num 0) true = Ok py /\
    bbox_width b = sub px (bbox_x b) /\
    bbox_height b = sub py (bbox_y b) /\
    num_eq px (Num 160) /\ num_eq py (Num 200) /\
    num_eq (bbox_x b) (Num 70) /\ num_eq (bbox_y b) (Num 140).
Proof.
  assert (Hb : DomainRef.imageToBBox Layout PixelCalc.id2name
                 (mapRangeToPixel log10) mapDomainToPixel mapPaperToPixel
                 layout (image "right" "bottom") =
               Ok {| bbox_x := Num (3500 # 50); bbox_y := Num (1400 # 10);
                     bbox_width := Num (22500 # 250);
                     bbox_height := Num (1200 # 20) |})
    by (vm_compute; reflexivity).
  assert (Hx : DomainRef.mapAROCoordToPixel Layout PixelCalc.id2name
                 (mapRangeToPixel log10) mapDomainToPixel mapPaperToPixel
                 layout xref (AImage (image "right" "bottom")) cx (Num 0) true
               = Ok (Num (800 # 5)))
    by (vm_compute; reflexivity).
  assert (Hy : DomainRef.mapAROCoordToPixel Layout PixelCalc.id2name
                 (mapRangeToPixel log10) mapDomainToPixel mapPaperToPixel
                 layout yref (AImage (image "right" "bottom")) cy (Num 0) true
               = Ok (Num (400 # 2)))
    by (vm_compute; reflexivity).
  destruct (ComponentsFacts.imageToBBox_anchor_edges Layout PixelCalc.id2name
              (mapRangeToPixel log10) mapDomainToPixel mapPaperToPixel
              layout (image "right" "bottom") _ _ _ Hb Hx Hy)
    as (_ & Hr & _ & Hbot).
  eexists. eexists. eexists.
  refine (conj Hb (conj Hx (conj Hy (conj (Hr eq_refl) (conj (Hbot eq_refl) _))))).
  refine (conj _ (conj _ (conj _ _))); vm_compute; reflexivity.
Defined.

Lemma annotationTest_without_log10_witness :
  PixelCalc.annotationTest_expected log10 layout
    (Num 2) (Num 1) (Num 3) (Num 2) "x" "y" "x" "y" "linear" "linear" =
  PixelCalc.annotationTest_expected (fun v => v) layout
    (Num 2) (Num 1) (Num 3) (Num 2) "x" "y" "x" "y" "linear" "linear".
Proof.
  unfold PixelCalc.annotationTest_expected.
  assert (H : forall f g : num -> num,
            DomainRef.annotationTest_expected Layout PixelCalc.id2name
              (mapRangeToPixel log10) mapDomainToPixel mapPaperToPixel f layout
              (Num 2) (Num 1) (Num 3) (Num 2) "x" "y" "x" "y" "linear" "linear" =
            DomainRef.annotationTest_expected Layout PixelCalc.id2name
              (mapRangeToPixel log10) mapDomainToPixel mapPaperToPixel g layout
              (Num 2) (Num 1) (Num 3) (Num 2) "x" "y" "x" "y" "linear" "linear").
  { intros f g.
    apply (ComponentsFacts.annotationTest_without_log10 Layout PixelCalc.id2name
             (mapRangeToPixel log10) mapDomainToPixel mapPaperToPixel f g);
      left; discriminate. }
  rewrite (H log10 (fun v => v)). reflexivity.
Defined.

Lemma logAxisIfAxType_log_witness :
  exists out,
    logAxisIfAxType ComponentsExample.id2name log10 layout_in [] "x2" "log"
      = Some out /\
    get_axis out "xaxis2" =
      Some {| ao_type := Some "log";
              ao_range := Some [Num 0; Num 3];
              ao_other := [("anchor", PStr "y")] |} /\
    (forall k, k <> "xaxis2" -> get_axis out k = get_axis [] k).
Proof.
  apply (ComponentsFacts.logAxisIfAxType_log ComponentsExample.id2name log10
           layout_in [] "x2"
           {| ao_type := Some "linear";
              ao_range := Some [Num 1; Num 1000];
              ao_other := [("anchor", PStr "y")] |}
           [Num 1; Num 1000]).
  - reflexivity.
  - reflexivity.
Defined.

Lemma logAxisIfAxType_again_witness :
  logAxisIfAxType ComponentsExample.id2name log10 layout_in
    [("xaxis2", {| ao_type := Some "log"; ao_range := Some [Num 0; Num 3];
                   ao_other := [("anchor", PStr "y")] |})]
    "x2" "log"
  = Some [("xaxis2", {| ao_type := Some "log"; ao_range := Some [Num 0; Num 3];
                        ao_other := [("anchor", PStr "y")] |})].
Proof.
  apply (ComponentsFacts.logAxisIfAxType_again ComponentsExample.id2name log10
           layout_in [] "x2" "log").
  vm_compute. reflexivity.
Defined.

Lemma aroSetCommonParams_twice_witness :
  get (aroSetCommonParams (aroSetCommonParams [] "x" "x2" (Num 2))
         "y" "paper" (Num 1)) "x0" = Some (PNum (Num 2)) /\
  get (aroSetCommonParams (aroSetCommonParams [] "x" "x2" (Num 2))
         "y" "paper" (Num 1)) "y0" = Some (PNum (Num 1)) /\
  get (aroSetCommonParams (aroSetCommonParams [] "x" "x2" (Num 2))
         "y" "paper" (Num 1)) "axref" = Some (PStr "paper").
Proof.
  apply (ComponentsFacts.aroSetCommonParams_twice [] "x" "y" "x2" "paper"
           (Num 2) (Num 1)).
  discriminate.
Defined.

Lemma testAnnotationCombo_modes_witness :
  exists a,
    testAnnotationCombo_args combo = Ok a /\
    arg_ax a = Num 25 /\
    arg_ay a = Num 2 /\
    forall e,
      testAnnotationCombo_expected Layout PixelCalc.id2name
        (mapRangeToPixel log10) mapDomainToPixel mapPaperToPixel log10
        layout combo = Ok e ->
      axpixels e = true /\ aypixels e = false.
Proof.
  apply (ComponentsFacts.testAnnotationCombo_modes Layout PixelCalc.id2name
           (mapRangeToPixel log10) mapDomainToPixel mapPaperToPixel log10
           layout combo).
  - reflexivity.
  - reflexivity.
  - left. reflexivity.
  - left. reflexivity.
Defined.

(** The combination above is one that the test can run: what it expects
    is computed, with the x arrow in pixels and the y arrow as a
    coordinate. *)
Example testAnnotationCombo_runs :
  exists e,
    testAnnotationCombo_expected Layout PixelCalc.id2name
      (mapRangeToPixel log10) mapDomainToPixel mapPaperToPixel log10
      layout combo = Ok e /\
    axpixels e = true /\ aypixels e = false /\ xpixels e = Num 25.
Proof.
  eexists. split; [vm_compute; reflexivity|]. repeat split.
Qed.

End ComponentsWitness.
